(** * preprocess_html.py: HTML to JSONL preprocessing for RAG

    A shallow embedding of [src/preprocess_html.py] and the properties of
    its text cleaning, metadata extraction, chunk emission and file
    discovery.

    Conventions.
    - A Python [str] is a [string]; every [ascii] stands for one character
      (a code point below 256).
    - The program prints, opens files and writes lines: each function that
      has effects returns the list of [event]s it performs, in order.
    - The parsed document is a tree of Python objects that the program
      mutates in place; every [Tag] carries the identity of its object. *)

From Stdlib Require Import String Ascii List Arith ZArith Lia Bool.
From Stdlib Require Import Sorted Permutation.
From Equations Require Import Equations.
Import ListNotations.

Set Warnings "-register-all".

Local Open Scope string_scope.
Local Open Scope nat_scope.
Local Open Scope list_scope.

(** ** Python built-ins used by the program *)

Module Py.

Definition code (c : ascii) : nat := nat_of_ascii c.

(** [str.isspace] on one character. *)
Definition isspace (c : ascii) : bool :=
  let n := code c in
  ((9 <=? n) && (n <=? 13)) || ((28 <=? n) && (n <=? 32))
  || (n =? 133) || (n =? 160).

(** [str.lstrip()], [str.rstrip()], [str.strip()]. *)
Fixpoint lstrip (s : string) : string :=
  match s with
  | String c rest => if isspace c then lstrip rest else s
  | EmptyString => EmptyString
  end.

Fixpoint rstrip (s : string) : string :=
  match s with
  | String c rest =>
      match rstrip rest with
      | EmptyString => if isspace c then EmptyString else String c EmptyString
      | kept => String c kept
      end
  | EmptyString => EmptyString
  end.

Definition strip (s : string) : string := rstrip (lstrip s).

(** Truth value of a [str]: non-empty. *)
Definition truthy (s : string) : bool :=
  match s with EmptyString => false | String _ _ => true end.

(** Line boundaries of [str.splitlines]. *)
Definition is_linebreak (c : ascii) : bool :=
  let n := code c in
  ((10 <=? n) && (n <=? 13)) || ((28 <=? n) && (n <=? 30)) || (n =? 133).

(** [str.splitlines()]: [cur] is the line being read. *)
Fixpoint splitlines_from (cur : string) (s : string) : list string :=
  match s with
  | EmptyString => if truthy cur then [cur] else []
  | String c rest =>
      if (code c =? 13) then
        match rest with
        | String c' rest' =>
            if (code c' =? 10) then cur :: splitlines_from EmptyString rest'
            else cur :: splitlines_from EmptyString rest
        | EmptyString => cur :: splitlines_from EmptyString rest
        end
      else if is_linebreak c then cur :: splitlines_from EmptyString rest
      else splitlines_from (cur ++ String c EmptyString) rest
  end.

Definition splitlines (s : string) : list string :=
  splitlines_from EmptyString s.

(** [sep.join(parts)]. *)
Definition join (sep : string) (parts : list string) : string :=
  String.concat sep parts.

(** [str.lower()] on one character and on a string. *)
Definition lower_char (c : ascii) : ascii :=
  let n := code c in
  if ((65 <=? n) && (n <=? 90))
     || ((192 <=? n) && (n <=? 222) && negb (n =? 215))
  then ascii_of_nat (n + 32) else c.

Fixpoint lower (s : string) : string :=
  match s with
  | String c rest => String (lower_char c) (lower rest)
  | EmptyString => EmptyString
  end.

(** [s.startswith(p)] and [s.endswith(p)]. *)
Definition startswith (s p : string) : bool := String.prefix p s.

Definition endswith (s p : string) : bool :=
  (String.length p <=? String.length s)
  && String.eqb (substring (String.length s - String.length p)
                           (String.length p) s) p.

(** [s.endswith((p1, p2, ...))]. *)
Definition endswith_any (s : string) (ps : list string) : bool :=
  existsb (endswith s) ps.

(** [enumerate(xs)]. *)
Fixpoint enumerate_from {A} (start : nat) (xs : list A) : list (nat * A) :=
  match xs with
  | [] => []
  | x :: rest => (start, x) :: enumerate_from (S start) rest
  end.

Definition enumerate {A} (xs : list A) : list (nat * A) :=
  enumerate_from 0 xs.

(** [sorted(xs)] on strings: ascending code-point order.  Equal strings
    are identical, so every sorting algorithm returns the same list;
    insertion is used here. *)
Fixpoint insert_sorted (x : string) (xs : list string) : list string :=
  match xs with
  | [] => [x]
  | y :: rest =>
      if String.leb x y then x :: xs else y :: insert_sorted x rest
  end.

Fixpoint sorted (xs : list string) : list string :=
  match xs with
  | [] => []
  | x :: rest => insert_sorted x (sorted rest)
  end.

(** A [dict] with string keys, in insertion order: [d[k] = v] replaces
    the value of a key that is present and appends a new key. *)
Fixpoint dict_set {V} (k : string) (v : V) (d : list (string * V))
  : list (string * V) :=
  match d with
  | [] => [(k, v)]
  | (k', v') :: rest =>
      if String.eqb k k' then (k, v) :: rest
      else (k', v') :: dict_set k v rest
  end.

(** [d.get(k)]. *)
Fixpoint dict_get {V} (k : string) (d : list (string * V)) : option V :=
  match d with
  | [] => None
  | (k', v) :: rest => if String.eqb k k' then Some v else dict_get k rest
  end.

Definition keys {V} (d : list (string * V)) : list string := map fst d.

End Py.

(** [os.path] functions (POSIX flavour). *)

Module OsPath.

Definition sep : ascii := "/"%char.

(** [os.path.join(a, b)]. *)
Definition join (a b : string) : string :=
  if Py.startswith b "/" then b
  else if negb (Py.truthy a) || Py.endswith a "/" then a ++ b
  else a ++ "/" ++ b.

(** [os.path.basename(p)]: what follows the last slash. *)
Fixpoint basename (p : string) : string :=
  match p with
  | EmptyString => EmptyString
  | String c rest =>
      if existsb (Ascii.eqb sep) (list_ascii_of_string rest)
      then basename rest
      else if Ascii.eqb c sep then rest else p
  end.

End OsPath.

(** ** The parsed document and the BeautifulSoup operations the program calls

    The parser itself is outside the program's code; what the program relies
    on is the tree it returns and the search and removal operations on it. *)

Module Bs4.

(** A page element.  [Comment] stands for the string classes that
    [get_text] leaves out.  [tag_id] is the identity of the Python
    object: the program holds references to tags and removes them
    through these references. *)
Inductive node : Type :=
| NavigableString (text : string)
| Comment (text : string)
| Tag (tag_id : nat) (name : string) (attrs : list (string * string))
      (contents : list node).

(** The [BeautifulSoup] object, given by its contents. *)
Definition soup : Type := list node.

(** An element followed by its descendants, in document order. *)
Fixpoint subtree (n : node) : list node :=
  n :: match n with
       | Tag _ _ _ cs =>
           (fix each (cs : list node) : list node :=
              match cs with
              | [] => []
              | c :: rest => subtree c ++ each rest
              end) cs
       | _ => []
       end.

(** [element.descendants]. *)
Definition descendants (s : soup) : list node := flat_map subtree s.

Definition contents (n : node) : list node :=
  match n with Tag _ _ _ cs => cs | _ => [] end.

(** Criteria of [find] and [find_all]. *)
Definition named (names : list string) (n : node) : bool :=
  match n with
  | Tag _ nm _ _ => existsb (String.eqb nm) names
  | _ => false
  end.

Definition get (key : string) (n : node) : option string :=
  match n with
  | Tag _ _ ats _ => Py.dict_get key ats
  | _ => None
  end.

(** [attrs={key: value}]. *)
Definition with_attr (key value : string) (n : node) : bool :=
  match get key n with
  | Some v => String.eqb v value
  | None => false
  end.

(** The values of a whitespace-separated attribute such as [class]. *)
Fixpoint tokens_from (cur : string) (s : string) : list string :=
  match s with
  | EmptyString => if Py.truthy cur then [cur] else []
  | String c rest =>
      if Py.isspace c
      then (if Py.truthy cur then [cur] else []) ++ tokens_from EmptyString rest
      else tokens_from (cur ++ String c EmptyString) rest
  end.

Definition tokens (s : string) : list string := tokens_from EmptyString s.

(** [class_=value]. *)
Definition with_class (value : string) (n : node) : bool :=
  match n with
  | Tag _ _ ats _ =>
      match Py.dict_get "class" ats with
      | Some v => existsb (String.eqb value) (tokens v)
      | None => false
      end
  | _ => false
  end.

(** [soup.find_all(...)], also written [soup(...)]: the matching tags in
    document order. *)
Definition find_all (matches : node -> bool) (s : soup) : list node :=
  filter matches (descendants s).

(** [soup.find(...)]: the first match, or [None]. *)
Definition find (matches : node -> bool) (s : soup) : option node :=
  match find_all matches s with
  | found :: _ => Some found
  | [] => None
  end.

Definition is_object (i : nat) (n : node) : bool :=
  match n with
  | Tag j _ _ _ => i =? j
  | _ => false
  end.

(** Taking the object [i] out of the tree, with all it contains. *)
Fixpoint detach_in (i : nat) (n : node) : node :=
  match n with
  | Tag j nm ats cs =>
      Tag j nm ats
          ((fix each (cs : list node) : list node :=
              match cs with
              | [] => []
              | c :: rest =>
                  if is_object i c then each rest
                  else detach_in i c :: each rest
              end) cs)
  | other => other
  end.

Fixpoint detach (i : nat) (s : soup) : soup :=
  match s with
  | [] => []
  | c :: rest =>
      if is_object i c then detach i rest
      else detach_in i c :: detach i rest
  end.

(** [tag.decompose()]: the tag leaves the tree that holds it.  A tag that
    is no longer in the tree (it went with an enclosing tag) changes
    nothing. *)
Definition decompose (tag : node) (s : soup) : soup :=
  match tag with
  | Tag i _ _ _ => detach i s
  | _ => s
  end.

(** The strings [get_text] collects. *)
Definition text_of (n : node) : list string :=
  match n with
  | NavigableString t => [t]
  | _ => []
  end.

(** [soup.get_text(separator)]. *)
Definition get_text (separator : string) (s : soup) : string :=
  Py.join separator (flat_map text_of (descendants s)).

(** [tag.get_text(separator)]. *)
Definition tag_get_text (separator : string) (n : node) : string :=
  get_text separator (contents n).

(** [tag.string]: the single string a tag holds, directly or through a
    chain of only children. *)
Fixpoint tag_string (n : node) : option string :=
  match n with
  | Tag _ _ _ (c :: nil) =>
      match c with
      | NavigableString t => Some t
      | Comment t => Some t
      | Tag _ _ _ _ => tag_string c
      end
  | _ => None
  end.

(** Identities and names of the tags of a tree, in document order. *)
Definition identity (n : node) : list nat :=
  match n with Tag i _ _ _ => [i] | _ => [] end.


(** What one sees of an element without looking inside it. *)
Inductive label : Type :=
| LString (text : string)
| LComment (text : string)
| LTag (tag_id : nat) (name : string) (attrs : list (string * string)).

Definition label_of (n : node) : label :=
  match n with
  | NavigableString t => LString t
  | Comment t => LComment t
  | Tag i nm ats _ => LTag i nm ats
  end.

(** The document read from left to right. *)
Definition labels (s : soup) : list label := map label_of (descendants s).


End Bs4.

(** ** The text splitter

    [RecursiveCharacterTextSplitter] comes from the package
    [langchain_text_splitters]; the program only constructs it and calls
    [split_text].  Its code is not in the source tree, so the definitions of
    this module follow the program's specification (sections 4.1 and 4.2). *)

Module Splitter.

(** Modelled from the spec: whether a separator occurs in a text (the
    occurrence test of the Boundary Splitter, absent from the source
    tree). *)
Fixpoint occurs (sep text : string) : bool :=
  String.prefix sep text
  || match text with
     | String _ rest => occurs sep rest
     | EmptyString => false
     end.

(** Modelled from the spec: step 3 of the Recursive Chunker (absent from
    the source tree), "split text on every occurrence of that separator,
    producing an ordered sequence of fragments"; the separator is
    discarded.  [cur] is the fragment being read and [skip] what is left
    of a separator just met. *)
Fixpoint fragments_from (sep cur : string) (skip : nat) (text : string)
  : list string :=
  match text with
  | EmptyString => [cur]
  | String c rest =>
      match skip with
      | S k => fragments_from sep cur k rest
      | O =>
          if String.prefix sep text
          then cur :: fragments_from sep EmptyString (String.length sep - 1) rest
          else fragments_from sep (cur ++ String c EmptyString) 0 rest
      end
  end.

Definition fragments (sep text : string) : list string :=
  fragments_from sep EmptyString 0 text.

(** Modelled from the spec: the Boundary Splitter of section 4.1 (absent
    from the source tree), "the first separator in the list that occurs at
    least once in the text"; the empty separator matches everywhere and is
    what is left when the list is used up.  The result comes with the
    lower-priority separators that follow it. *)
Fixpoint select_separator (text : string) (separators : list string)
  : string * list string :=
  match separators with
  | [] => (EmptyString, [])
  | sep :: lower =>
      if negb (Py.truthy sep) || occurs sep text then (sep, lower)
      else select_separator text lower
  end.

Section Chunking.

Variables chunk_size chunk_overlap : nat.
Hypothesis valid : chunk_overlap < chunk_size.

(** Modelled from the spec: the fallback of section 4.2 (absent from
    the source tree), a text with no separator left "is cut at exactly
    chunk_size-length boundaries with chunk_overlap-length backward
    overlap between consecutive cuts". *)
Equations? cut (text : string) : list string
  by wf (String.length text) lt :=
  cut text with le_lt_dec (String.length text) chunk_size => {
    | left _ := [text];
    | right _ :=
        substring 0 chunk_size text
        :: cut (substring (chunk_size - chunk_overlap)
                  (String.length text - (chunk_size - chunk_overlap))
                  text) }.
Proof.
  assert (drop : forall (s : string) (n : nat),
             String.length (substring n (String.length s - n) s)
             = String.length s - n).
  { induction s as [|c s IH]; intros [|n]; simpl; try lia.
    - f_equal. specialize (IH 0). rewrite Nat.sub_0_r in IH. exact IH.
    - apply IH. }
  rewrite drop. lia.
Qed.

(** Modelled from the spec: step 4 of the Recursive Chunker (absent
    from the source tree), "flush the current buffer as a completed
    chunk"; the fragments of the buffer are rejoined with the
    separator. *)
Definition flush (sep : string) (buffer : list string) : list string :=
  match buffer with
  | [] => []
  | _ :: _ => [Py.join sep buffer]
  end.

(** Modelled from the spec: step 4 of the Recursive Chunker (absent
    from the source tree), "carry backward enough trailing fragments
    from the just-flushed buffer so that the new buffer begins with
    approximately chunk_overlap characters of repeated content"; the
    overlap is best effort and the new buffer, with the fragment [next]
    that opens it, never exceeds [chunk_size]. *)
Fixpoint carry_back (sep : string) (buffer : list string) (next : string)
  : list string :=
  match buffer with
  | [] => []
  | _ :: later =>
      if (String.length (Py.join sep buffer) <=? chunk_overlap)
         && (String.length (Py.join sep (buffer ++ [next])) <=? chunk_size)
      then buffer
      else carry_back sep later next
  end.

(** Modelled from the spec: steps 4 to 6 of the Recursive Chunker
    (absent from the source tree).  Fragments are packed greedily into
    [buffer] while the rejoined buffer stays within [chunk_size]; a
    fragment that alone exceeds [chunk_size] is handed to [recurse] (the
    chunker on the lower-priority separators) and its chunks take its
    place in the output. *)
Fixpoint pack (sep : string) (recurse : string -> list string)
         (buffer : list string) (frags : list string) : list string :=
  match frags with
  | [] => flush sep buffer
  | f :: rest =>
      if chunk_size <? String.length f then
        flush sep buffer ++ recurse f ++ pack sep recurse [] rest
      else if String.length (Py.join sep (buffer ++ [f])) <=? chunk_size then
        pack sep recurse (buffer ++ [f]) rest
      else
        flush sep buffer
        ++ pack sep recurse (carry_back sep buffer f ++ [f]) rest
  end.

(** Modelled from the spec: the Recursive Chunker of section 4.2
    (absent from the source tree), steps 1 to 6.  The separators are
    tried in priority order; the one selected is the first that occurs
    in the text, and the fragments it leaves are chunked with the
    separators that follow it. *)
Fixpoint split (separators : list string) (text : string) : list string :=
  if String.length text <=? chunk_size then [text]
  else
    match separators with
    | [] => cut text
    | sep :: lower =>
        if negb (Py.truthy sep) then cut text
        else if occurs sep text
             then pack sep (split lower) [] (fragments sep text)
             else split lower text
    end.

(** Modelled from the spec: [split_text] of the splitter (absent from
    the source tree); "empty input text yields zero chunks". *)
Definition split_text (separators : list string) (text : string)
  : list string :=
  if Py.truthy text then split separators text else [].

End Chunking.

(** Modelled from the spec: the outcome of constructing the splitter
    (the constructor is absent from the source tree). *)
Inductive construction : Type :=
| ConfigurationError
| Constructed (split_text : string -> list string).

Definition to_nat_lt (a b : Z) (Ha : (0 <= a)%Z) (Hab : (a < b)%Z)
  : Z.to_nat a < Z.to_nat b :=
  proj1 (Z2Nat.inj_lt a b Ha (Z.lt_le_incl 0 b (Z.le_lt_trans 0 a b Ha Hab)))
        Hab.

(** Modelled from the spec: the constructor of the splitter (absent from
    the source tree), "malformed configuration (chunk_overlap >=
    chunk_size, negative sizes) fails fast with a configuration error".
    [separators] is the ranked separator list of the splitter, ending in
    the empty separator. *)
Definition RecursiveCharacterTextSplitter
           (separators : list string) (chunk_size chunk_overlap : Z)
  : construction :=
  match Z_le_dec 0 chunk_overlap, Z_lt_dec chunk_overlap chunk_size with
  | left nonneg, left below =>
      Constructed
        (split_text (Z.to_nat chunk_size) (Z.to_nat chunk_overlap)
                    (to_nat_lt chunk_overlap chunk_size nonneg below)
                    separators)
  | _, _ => ConfigurationError
  end.

End Splitter.

(** ** What the program sees and does *)

(** A JSON value, as far as the program builds one. *)
Inductive json : Type :=
| JString (s : string)
| JInt (n : Z)
| JObject (members : list (string * json)).

(** What the program does to the outside: lines printed, files opened and
    entries written to the output file.  [WriteLine entry] is
    [output_handle.write(json.dumps(entry, ensure_ascii=False) + "\n")]. *)
Inductive event : Type :=
| Print (line : string)
| OpenRead (path : string)
| OpenWrite (path : string)
| WriteLine (entry : json).

(** What a path leads to.  [Special] is whatever is neither a regular file
    nor a directory. *)
Inductive fs_node : Type :=
| RegularFile
| Special
| Directory (entries : list (string * fs_node)).

(** How [main] ends. *)
Inductive outcome : Type :=
| Returned
| Raised.

(** The parsed command line. *)
Record arguments : Type := {
  input : list string;
  output : string;
  chunk_size : Z;
  chunk_overlap : Z
}.

Definition newline : string := String (ascii_of_nat 10) EmptyString.

(** Names of the directories and of the other entries of a listing. *)
Definition dirnames (entries : list (string * fs_node)) : list string :=
  flat_map (fun e => match snd e with Directory _ => [fst e] | _ => [] end)
           entries.

Definition filenames (entries : list (string * fs_node)) : list string :=
  flat_map (fun e => match snd e with Directory _ => [] | _ => [fst e] end)
           entries.

(** [os.walk(top)], top-down: one triple per directory, the directory
    itself first, then its subdirectories in the order of the listing. *)
Fixpoint walk_node (top : string) (n : fs_node)
  : list (string * list string * list string) :=
  match n with
  | Directory entries =>
      (top, dirnames entries, filenames entries)
      :: (fix below (es : list (string * fs_node)) :=
            match es with
            | [] => []
            | (name, child) :: rest =>
                walk_node (OsPath.join top name) child ++ below rest
            end) entries
  | _ => []
  end.

Definition walk (top : string) (entries : list (string * fs_node))
  : list (string * list string * list string) :=
  walk_node top (Directory entries).

Section Program.

(** [BeautifulSoup(html_content, "html.parser")]. *)
Variable html_parser : string -> Bs4.soup.

(** [open(file_path, 'r', encoding='utf-8', errors='ignore')] followed by
    [f.read()]: the text of the file, or the message of the exception
    raised. *)
Variable read_text : string -> string + string.

(** What the file system holds at a path. *)
Variable lookup : string -> option fs_node.

(** The ranked separators of a splitter constructed without a separator
    list. *)
Variable separators : list string.

(** *** [clean_html] *)

(** Lines 33-34: every script, style and noscript tag found is
    decomposed. *)
Definition remove_scripts (soup : Bs4.soup) : Bs4.soup :=
  fold_left (fun soup tag => Bs4.decompose tag soup)
            (Bs4.find_all (Bs4.named ["script"; "style"; "noscript"]) soup)
            soup.

Definition boilerplate : list string :=
  ["header"; "footer"; "nav"; "aside"; "form"].

(** Lines 37-39, the body of the loop over the boilerplate tags. *)
Definition remove_found (soup : Bs4.soup) (tag : string) : Bs4.soup :=
  match Bs4.find (Bs4.named [tag]) soup with
  | Some found => Bs4.decompose found soup
  | None => soup
  end.

(** Lines 33-39: the tree once both loops have run. *)
Definition clean_soup (soup : Bs4.soup) : Bs4.soup :=
  fold_left remove_found boilerplate (remove_scripts soup).

(** Lines 41-44. *)
Definition clean_text (soup : Bs4.soup) : string :=
  let text := Bs4.get_text newline soup in
  let lines :=
    map Py.strip
        (filter (fun line => Py.truthy (Py.strip line)) (Py.splitlines text))
  in
  Py.join newline lines.

Definition clean_html (html_content : string) : string * Bs4.soup :=
  let soup := clean_soup (html_parser html_content) in
  (clean_text soup, soup).

(** *** [extract_metadata] *)

Definition meta_title (soup : Bs4.soup) (meta : list (string * string))
  : list (string * string) :=
  match Bs4.find (Bs4.named ["title"]) soup with
  | Some title =>
      match Bs4.tag_string title with
      | Some s => if Py.truthy s then Py.dict_set "title" (Py.strip s) meta
                  else meta
      | None => meta
      end
  | None => meta
  end.

(** The [content] of a [meta] tag, when the tag exists and the content is
    not empty. *)
Definition meta_content (key value : string) (soup : Bs4.soup)
  : option string :=
  match Bs4.find (fun n => Bs4.named ["meta"] n && Bs4.with_attr key value n)
                 soup with
  | Some tag =>
      match Bs4.get "content" tag with
      | Some c => if Py.truthy c then Some c else None
      | None => None
      end
  | None => None
  end.

Definition meta_author (soup : Bs4.soup) (meta : list (string * string))
  : list (string * string) :=
  let meta :=
    match meta_content "name" "author" soup with
    | Some c => Py.dict_set "author" (Py.strip c) meta
    | None => meta
    end in
  match Py.dict_get "author" meta with
  | Some _ => meta
  | None =>
      match Bs4.find (Bs4.with_class "author") soup with
      | Some author_span =>
          Py.dict_set "author" (Py.strip (Bs4.tag_get_text " " author_span))
                      meta
      | None => meta
      end
  end.

Definition meta_date (soup : Bs4.soup) (meta : list (string * string))
  : list (string * string) :=
  let meta :=
    match Bs4.find (Bs4.named ["time"]) soup with
    | Some time_tag =>
        let shown :=
          match Bs4.get "datetime" time_tag with
          | Some machine => machine
          | None => Bs4.tag_get_text EmptyString time_tag
          end in
        Py.dict_set "date" (Py.strip shown) meta
    | None => meta
    end in
  match meta_content "property" "article:published_time" soup with
  | Some c => Py.dict_set "date" (Py.strip c) meta
  | None => meta
  end.

Definition extract_metadata (soup : Bs4.soup) : list (string * string) :=
  meta_date soup (meta_author soup (meta_title soup [])).

(** *** [process_file] *)

(** Lines 91-95. *)
Definition file_metadata (soup : Bs4.soup) (file_path : string)
           (source_url : option string) : list (string * string) :=
  let metadata := extract_metadata soup in
  let metadata := Py.dict_set "filename" (OsPath.basename file_path) metadata in
  match source_url with
  | Some url => if Py.truthy url then Py.dict_set "source" url metadata
                else metadata
  | None => metadata
  end.

(** Lines 100-106. *)
Definition entry_of (metadata : list (string * string)) (idx : nat)
           (chunk : string) : json :=
  JObject
    [("content", JString chunk);
     ("metadata",
       JObject (Py.dict_set "chunk" (JInt (Z.of_nat idx))
                  (map (fun kv => (fst kv, JString (snd kv))) metadata)))].

Definition process_file (file_path : string)
           (split_text : string -> list string)
           (source_url : option string) : list event :=
  OpenRead file_path
  :: match read_text file_path with
     | inr e =>
         [Print ("Warning: could not read file " ++ file_path ++ ": " ++ e)]
     | inl raw =>
         let (text, soup) := clean_html raw in
         if negb (Py.truthy text) then
           [Print ("Note: no content extracted from " ++ file_path)]
         else
           let metadata := file_metadata soup file_path source_url in
           let chunks := split_text text in
           map (fun ic => WriteLine (entry_of metadata (fst ic) (snd ic)))
               (Py.enumerate chunks)
     end.

(** *** [gather_files] *)

Definition isdir (path : string) : bool :=
  match lookup path with Some (Directory _) => true | _ => false end.

Definition isfile (path : string) : bool :=
  match lookup path with Some RegularFile => true | _ => false end.

Definition is_html (name : string) : bool :=
  Py.endswith_any (Py.lower name) [".html"; ".htm"].

(** Lines 117-120. *)
Definition html_under (path : string) (entries : list (string * fs_node))
  : list string :=
  flat_map (fun triple =>
              match triple with
              | (root, _, names) =>
                  map (OsPath.join root) (filter is_html names)
              end)
           (walk path entries).

(** Lines 115-124, the body of the loop over [paths]: the state is the
    list [files] and what has been printed. *)
Definition gather_step (state : list string * list event) (path : string)
  : list string * list event :=
  let (files, printed) := state in
  match lookup path with
  | Some (Directory entries) => (files ++ html_under path entries, printed)
  | Some RegularFile => (files ++ [path], printed)
  | _ => (files, printed ++ [Print ("Skipping non-existent path: " ++ path)])
  end.

Definition gather_files (paths : list string) : list string * list event :=
  let (files, printed) := fold_left gather_step paths ([], []) in
  (Py.sorted files, printed).

(** *** [main] *)

(** Lines 149-152: the files are processed in order; the progress bar
    itself is left out. *)
Definition process_all (files : list string)
           (split_text : string -> list string) : list event :=
  flat_map (fun file_path => process_file file_path split_text None) files.

(** [main], from the parsed arguments on.  The output file is taken to
    open. *)
Definition main (args : arguments) : list event * outcome :=
  let (files, printed) := gather_files (input args) in
  match files with
  | [] => (printed ++ [Print "No input files found."], Returned)
  | _ :: _ =>
      match Splitter.RecursiveCharacterTextSplitter
              separators (chunk_size args) (chunk_overlap args) with
      | Splitter.ConfigurationError => (printed, Raised)
      | Splitter.Constructed split_text =>
          (printed
             ++ [OpenWrite (output args)]
             ++ process_all files split_text
             ++ [Print ("Done. Output written to " ++ output args)],
           Returned)
      end
  end.

End Program.

(** ** Reading what was written *)

(** The value of a key of a JSON object. *)
Definition member (key : string) (value : json) : option json :=
  match value with
  | JObject members => Py.dict_get key members
  | _ => None
  end.

(** The [chunk] value of an output record. *)
Definition chunk_of (entry : json) : option json :=
  match member "metadata" entry with
  | Some metadata => member "chunk" metadata
  | None => None
  end.

(** The records written, in order. *)
Definition written (events : list event) : list json :=
  flat_map (fun e => match e with WriteLine entry => [entry] | _ => [] end)
           events.

(** An event that touches no file. *)
Definition is_print (e : event) : Prop :=
  match e with
  | Print _ => True
  | _ => False
  end.

(** Ascending order of strings, as [sorted] compares them. *)
Definition str_le (a b : string) : Prop := String.leb a b = true.


(** What one path argument of [gather_files] contributes. *)
Definition found_under (lookup : string -> option fs_node) (path : string)
  : list string :=
  match lookup path with
  | Some (Directory entries) => html_under path entries
  | Some RegularFile => [path]
  | _ => []
  end.

(** A path that is neither a directory nor a regular file. *)
Definition missing (lookup : string -> option fs_node) (path : string) : bool :=
  negb (isdir lookup path || isfile lookup path).



(** What [extract_metadata] looks for. *)

(** The title, when the document has a title element holding one
    non-empty string. *)
Definition title_found (soup : Bs4.soup) : Prop :=
  exists title s,
    Bs4.find (Bs4.named ["title"]) soup = Some title
    /\ Bs4.tag_string title = Some s /\ s <> EmptyString.

Definition author_found (soup : Bs4.soup) : Prop :=
  meta_content "name" "author" soup <> None
  \/ Bs4.find (Bs4.with_class "author") soup <> None.

Definition date_found (soup : Bs4.soup) : Prop :=
  Bs4.find (Bs4.named ["time"]) soup <> None
  \/ meta_content "property" "article:published_time" soup <> None.


(** The names of the tags that the first loop of [clean_html] removes. *)
Definition script_names : list string := ["script"; "style"; "noscript"].



(** ** A small site to run the program on *)

Module Sample.

(** Two documents: one paragraph, and nothing at all. *)
Definition html_parser (html : string) : Bs4.soup :=
if String.eqb html "<p>Hello world</p>"
then [Bs4.Tag 1 "p" [] [Bs4.NavigableString "Hello world"]]
else [].

Definition read_text (path : string) : string + string :=
if String.eqb path "site/page.html" then inl "<p>Hello world</p>"
else if String.eqb path "empty.html" then inl ""
else inr "[Errno 13] Permission denied".

Definition lookup (path : string) : option fs_node :=
if String.eqb path "site"
then Some (Directory [("notes.txt", RegularFile);
                      ("page.html", RegularFile)])
else if String.eqb path "README.txt" then Some RegularFile
else if String.eqb path "empty.html" then Some RegularFile
else None.

Definition separators : list string :=
[newline ++ newline; newline; " "; ""]%string.

(** A splitter that keeps a text whole. *)
Definition whole (text : string) : list string := [text].

(** A splitter that cuts a text after its fifth character. *)
Definition halves (text : string) : list string :=
[substring 0 5 text; substring 5 (String.length text - 5) text].

(** A command line whose overlap exceeds the chunk size and whose only
  input path does not exist. *)
Definition bad_overlap : arguments :=
{| input := ["nowhere"]; output := "output.jsonl";
   chunk_size := 10; chunk_overlap := 20 |}.

(** The command line with its default sizes, on the sample site. *)
Definition defaults : arguments :=
  {| input := ["site"]; output := "output.jsonl";
     chunk_size := 1000; chunk_overlap := 200 |}.

(** The record written for the one page of the site. *)
Definition page_record (content : string) (idx : Z) : json :=
  JObject [("content", JString content);
           ("metadata", JObject [("filename", JString "page.html");
                                 ("chunk", JInt idx)])].

End Sample.


(** ** More ways of looking at what the program does *)

(** A string made of whitespace only. *)
Fixpoint all_space (s : string) : bool :=
  match s with
  | EmptyString => true
  | String c rest => Py.isspace c && all_space rest
  end.

(** A string that holds no line boundary. *)
Fixpoint one_line (s : string) : bool :=
  match s with
  | EmptyString => true
  | String c rest => negb (Py.is_linebreak c) && one_line rest
  end.

(** A string that holds no slash. *)
Fixpoint no_slash (s : string) : bool :=
  match s with
  | EmptyString => true
  | String c rest => negb (Ascii.eqb c OsPath.sep) && no_slash rest
  end.

(** A list obtained from another by leaving elements out, the order of the
    others kept. *)
Inductive subseq {A : Type} : list A -> list A -> Prop :=
| subseq_nil : subseq [] []
| subseq_keep x l l' : subseq l l' -> subseq (x :: l) (x :: l')
| subseq_drop x l l' : subseq l l' -> subseq l (x :: l').

(** The paths opened for reading, in order. *)
Definition opened (events : list event) : list string :=
  flat_map (fun e => match e with OpenRead path => [path] | _ => [] end)
           events.

(** The paths opened for writing, in order. *)
Definition opened_for_writing (events : list event) : list string :=
  flat_map (fun e => match e with OpenWrite path => [path] | _ => [] end)
           events.

(** The metadata object of an output record. *)
Definition metadata_of (entry : json) : list (string * json) :=
  match member "metadata" entry with
  | Some (JObject members) => members
  | _ => []
  end.


(** A key that is there or not. *)
Definition optional_key (present : bool) (key : string) : list string :=
  if present then [key] else [].

(** * Properties *)

(** ** The Python built-ins on small inputs *)

Example splitlines_ex :
  Py.splitlines (String "a" (String "010" (String "013" (String "010" (String "b" (String "010" EmptyString))))))
  = ["a"; ""; "b"].
Proof. reflexivity. Qed.

Example strip_ex : Py.strip "  a b  " = "a b".
Proof. reflexivity. Qed.

Example basename_ex : OsPath.basename "a/b/c.html" = "c.html" /\ OsPath.basename "c" = "c" /\ OsPath.basename "a/" = "".
Proof. repeat split; reflexivity. Qed.

Example join_ex : OsPath.join "a" "b" = "a/b" /\ OsPath.join "a/" "b" = "a/b" /\ OsPath.join "" "b" = "b".
Proof. repeat split; reflexivity. Qed.

Example endswith_ex : Py.endswith (Py.lower "X.HTML") ".html" = true /\ Py.endswith "html" ".html" = false.
Proof. repeat split; reflexivity. Qed.

Example sorted_ex : Py.sorted ["b"; "a/c"; "a"; "B"] = ["B"; "a"; "a/c"; "b"].
Proof. reflexivity. Qed.

(** ** The splitter: every chunk fits the configured size *)

Lemma length_substring (s : string) (n m : nat) :
  n + m <= String.length s -> String.length (substring n m s) = m.
Proof.
  revert n m. induction s as [|c s IH]; intros [|n] [|m]; simpl; intros H;
    try lia; try reflexivity.
  - f_equal. apply (IH 0 m). simpl. lia.
  - apply (IH n 0). lia.
  - apply (IH n (S m)). lia.
Qed.

Lemma join_single (sep f : string) : Py.join sep [f] = f.
Proof. reflexivity. Qed.

Section ChunkBounds.

Variables chunk_size chunk_overlap : nat.
Hypothesis valid : chunk_overlap < chunk_size.

Let fits (chunk : string) : Prop := String.length chunk <= chunk_size.
Let cut := Splitter.cut chunk_size chunk_overlap valid.
Let pack := Splitter.pack chunk_size chunk_overlap.
Let carry_back := Splitter.carry_back chunk_size chunk_overlap.
Let split := Splitter.split chunk_size chunk_overlap valid.

(** The fallback cut yields full windows followed by one remainder. *)
Lemma cut_windows (text : string) :
  exists full last,
    cut text = full ++ [last]
    /\ Forall (fun c => String.length c = chunk_size) full
    /\ String.length last <= chunk_size.
Proof.
  subst cut.
  apply (Splitter.cut_elim chunk_size chunk_overlap valid
           (fun text chunks =>
              exists full last,
                chunks = full ++ [last]
                /\ Forall (fun c => String.length c = chunk_size) full
                /\ String.length last <= chunk_size)).
  - intros t Hle _. exists [], t. repeat split; auto.
  - intros t Hlt (full & last & Heq & Hfull & Hlast) _.
    exists (substring 0 chunk_size t :: full), last.
    rewrite Heq. repeat split; auto.
    constructor; auto. apply length_substring. lia.
Qed.

Lemma cut_fits (text : string) : Forall fits (cut text).
Proof.
  destruct (cut_windows text) as (full & last & -> & Hfull & Hlast).
  apply Forall_app. split.
  - eapply Forall_impl; [|exact Hfull]. intros c Hc. unfold fits. cbv beta in Hc. lia.
  - constructor; auto.
Qed.

Lemma flush_fits (sep : string) (buffer : list string) :
  buffer = [] \/ fits (Py.join sep buffer) ->
  Forall fits (Splitter.flush sep buffer).
Proof.
  intros [-> | H]; [constructor|].
  destruct buffer; constructor; auto.
Qed.

Lemma carry_back_fits (sep next : string) (buffer : list string) :
  fits next -> fits (Py.join sep (carry_back sep buffer next ++ [next])).
Proof.
  intros Hnext. induction buffer as [|b later IH]; [exact Hnext|].
  subst carry_back. cbn [Splitter.carry_back].
  destruct (_ && _) eqn:Htest; [|exact IH].
  apply andb_prop in Htest as [_ H]. apply Nat.leb_le in H. exact H.
Qed.

Lemma pack_fits (sep : string) (recurse : string -> list string) :
  (forall f, Forall fits (recurse f)) ->
  forall frags buffer,
    buffer = [] \/ fits (Py.join sep buffer) ->
    Forall fits (pack sep recurse buffer frags).
Proof.
  intros Hrec. induction frags as [|f rest IH]; intros buffer Hbuf.
  - apply flush_fits, Hbuf.
  - subst pack. cbn [Splitter.pack].
    destruct (chunk_size <? String.length f) eqn:Hbig.
    + repeat (apply Forall_app; split); auto using flush_fits.
    + apply Nat.ltb_ge in Hbig.
      destruct (String.length (Py.join sep (buffer ++ [f])) <=? chunk_size)
        eqn:Hroom.
      * apply IH. right. apply Nat.leb_le in Hroom. exact Hroom.
      * apply Forall_app; split; [apply flush_fits, Hbuf|].
        apply IH. right. apply carry_back_fits. exact Hbig.
Qed.

Lemma split_fits (separators : list string) (text : string) :
  Forall fits (split separators text).
Proof.
  revert text. induction separators as [|sep lower IH]; intros text;
    subst split; cbn [Splitter.split];
    destruct (String.length text <=? chunk_size) eqn:Hshort;
    try (constructor; [apply Nat.leb_le, Hshort | constructor]);
    try apply cut_fits.
  destruct (negb (Py.truthy sep)); [apply cut_fits|].
  destruct (Splitter.occurs sep text); [|apply IH].
  apply pack_fits; auto.
Qed.

Lemma split_text_fits (separators : list string) (text : string) :
  Forall fits (Splitter.split_text chunk_size chunk_overlap valid
                 separators text).
Proof.
  unfold Splitter.split_text. destruct (Py.truthy text); [|constructor].
  apply split_fits.
Qed.

(** The chunker of section 4.2 reads its separator off the Boundary
    Splitter of section 4.1. *)
Lemma split_select (separators : list string) (text : string) :
  chunk_size < String.length text ->
  split separators text
  = let (sep, lower) := Splitter.select_separator text separators in
    if Py.truthy sep
    then pack sep (split lower) [] (Splitter.fragments sep text)
    else cut text.
Proof.
  intros Hlong. apply Nat.leb_gt in Hlong.
  induction separators as [|sep lower IH]; subst split;
    cbn [Splitter.split Splitter.select_separator]; rewrite Hlong.
  - reflexivity.
  - destruct (Py.truthy sep) eqn:Hsep; cbn [negb orb].
    + destruct (Splitter.occurs sep text); [rewrite Hsep; reflexivity|].
      exact IH.
    + rewrite Hsep. reflexivity.
Qed.

End ChunkBounds.

Lemma splitter_constructed (separators : list string)
      (chunk_size chunk_overlap : Z) :
  (0 <= chunk_overlap < chunk_size)%Z ->
  exists valid : Z.to_nat chunk_overlap < Z.to_nat chunk_size,
    Splitter.RecursiveCharacterTextSplitter separators chunk_size chunk_overlap
    = Splitter.Constructed
        (Splitter.split_text (Z.to_nat chunk_size) (Z.to_nat chunk_overlap)
                             valid separators).
Proof.
  intros [Hnonneg Hbelow]. unfold Splitter.RecursiveCharacterTextSplitter.
  destruct (Z_le_dec 0 chunk_overlap) as [nonneg|]; [|contradiction].
  destruct (Z_lt_dec chunk_overlap chunk_size) as [below|]; [|contradiction].
  eexists. reflexivity.
Qed.

Lemma splitter_rejected (separators : list string)
      (chunk_size chunk_overlap : Z) :
  (chunk_overlap >= chunk_size)%Z ->
  Splitter.RecursiveCharacterTextSplitter separators chunk_size chunk_overlap
  = Splitter.ConfigurationError.
Proof.
  intros Hge. unfold Splitter.RecursiveCharacterTextSplitter.
  destruct (Z_le_dec 0 chunk_overlap); [|reflexivity].
  destruct (Z_lt_dec chunk_overlap chunk_size); [lia|reflexivity].
Qed.

(** C1: for a configuration with [chunk_size > chunk_overlap >= 0] the
    splitter is constructed, and every chunk that its [split_text] returns,
    for every text and every ranked list of separators, is at most
    [chunk_size] characters long.  The chunks of the fallback cut, taken
    when no separator is left, are all exactly [chunk_size] long but the
    last, the remainder, which is at most [chunk_size] long. *)
Theorem C1_chunks_fit_chunk_size :
  forall (separators : list string) (chunk_size chunk_overlap : Z),
    (0 <= chunk_overlap < chunk_size)%Z ->
    exists (valid : Z.to_nat chunk_overlap < Z.to_nat chunk_size)
           (split_text : string -> list string),
      Splitter.RecursiveCharacterTextSplitter separators chunk_size
                                              chunk_overlap
      = Splitter.Constructed split_text
      /\ (forall text chunk,
             In chunk (split_text text) ->
             (Z.of_nat (String.length chunk) <= chunk_size)%Z)
      /\ (forall piece,
             exists full last,
               Splitter.cut (Z.to_nat chunk_size) (Z.to_nat chunk_overlap)
                            valid piece = full ++ [last]
               /\ Forall (fun c => Z.of_nat (String.length c) = chunk_size)
                         full
               /\ (Z.of_nat (String.length last) <= chunk_size)%Z).
Proof.
  intros separators chunk_size chunk_overlap Hconf.
  destruct (splitter_constructed separators chunk_size chunk_overlap Hconf)
    as [valid Heq].
  exists valid. eexists. split; [exact Heq|]. split.
  - intros text chunk Hin.
    pose proof (split_text_fits _ _ valid separators text) as Hfits.
    rewrite Forall_forall in Hfits. specialize (Hfits chunk Hin).
    cbv beta in Hfits. lia.
  - intros piece.
    destruct (cut_windows _ _ valid piece) as (full & last & Hcut & Hfull & Hlast).
    exists full, last. split; [exact Hcut|]. split; [|lia].
    eapply Forall_impl; [|exact Hfull]. intros c Hc. cbv beta in Hc. lia.
Qed.


(** ** Dictionaries *)

Lemma keys_dict_set {V} (k k' : string) (v : V) (d : list (string * V)) :
  In k (Py.keys (Py.dict_set k' v d)) <-> k = k' \/ In k (Py.keys d).
Proof.
  induction d as [|[k0 v0] d IH]; simpl.
  - intuition.
  - destruct (String.eqb_spec k' k0) as [->|Hne]; simpl; intuition.
Qed.

Lemma In_dict_set {V} (k k' : string) (v v' : V) (d : list (string * V)) :
  In (k, v) (Py.dict_set k' v' d) -> (k = k' /\ v = v') \/ In (k, v) d.
Proof.
  induction d as [|[k0 v0] d IH]; cbn [Py.dict_set].
  - intros [H|[]]. injection H as <- <-. auto.
  - destruct (String.eqb_spec k' k0) as [->|Hne].
    + intros [H|H]; [injection H as <- <-; auto|right; right; exact H].
    + intros [H|H]; [right; left; exact H|].
      destruct (IH H) as [?|?]; [auto|right; right; assumption].
Qed.

Lemma dict_get_set_same {V} (k : string) (v : V) (d : list (string * V)) :
  Py.dict_get k (Py.dict_set k v d) = Some v.
Proof.
  induction d as [|[k0 v0] d IH]; simpl.
  - rewrite String.eqb_refl. reflexivity.
  - destruct (String.eqb_spec k k0) as [->|Hne]; simpl.
    + rewrite String.eqb_refl. reflexivity.
    + destruct (String.eqb_spec k k0); [contradiction|exact IH].
Qed.

Lemma dict_get_set_other {V} (k k' : string) (v : V) (d : list (string * V)) :
  k <> k' -> Py.dict_get k (Py.dict_set k' v d) = Py.dict_get k d.
Proof.
  intros Hne. induction d as [|[k0 v0] d IH]; simpl.
  - destruct (String.eqb_spec k k'); [contradiction|reflexivity].
  - destruct (String.eqb_spec k' k0) as [->|Hne']; simpl.
    + destruct (String.eqb_spec k k0); [contradiction|reflexivity].
    + destruct (String.eqb_spec k k0); [reflexivity|exact IH].
Qed.

Lemma dict_get_keys {V} (k : string) (d : list (string * V)) :
  In k (Py.keys d) <-> Py.dict_get k d <> None.
Proof.
  induction d as [|[k0 v0] d IH]; simpl.
  - intuition.
  - destruct (String.eqb_spec k k0) as [->|Hne].
    + split; [discriminate|auto].
    + rewrite <- IH. intuition congruence.
Qed.

Lemma NoDup_keys_dict_set {V} (k : string) (v : V) (d : list (string * V)) :
  NoDup (Py.keys d) -> NoDup (Py.keys (Py.dict_set k v d)).
Proof.
  induction d as [|[k0 v0] d IH]; simpl; intros Hd.
  - constructor; [intros []|constructor].
  - inversion Hd as [|? ? Hnotin Hrest]; subst.
    destruct (String.eqb_spec k k0) as [->|Hne]; simpl.
    + constructor; assumption.
    + constructor; [|apply IH, Hrest].
      intros Hin. apply keys_dict_set in Hin as [Heq|Hin]; [congruence|].
      contradiction.
Qed.

Lemma dict_get_map_string (k : string) (d : list (string * string)) :
  Py.dict_get k (map (fun kv => (fst kv, JString (snd kv))) d)
  = option_map JString (Py.dict_get k d).
Proof.
  induction d as [|[k0 v0] d IH]; simpl; [reflexivity|].
  destruct (String.eqb k k0); [reflexivity|exact IH].
Qed.

Lemma keys_map_string (d : list (string * string)) :
  Py.keys (map (fun kv => (fst kv, JString (snd kv))) d) = Py.keys d.
Proof.
  unfold Py.keys. rewrite map_map. reflexivity.
Qed.

Lemma enumerate_from_fst {A} (start : nat) (xs : list A) :
  map fst (Py.enumerate_from start xs) = seq start (length xs).
Proof.
  revert start. induction xs as [|x xs IH]; intros start; simpl;
    [reflexivity|]. f_equal. apply IH.
Qed.

Lemma enumerate_from_snd {A} (start : nat) (xs : list A) :
  map snd (Py.enumerate_from start xs) = xs.
Proof.
  revert start. induction xs as [|x xs IH]; intros start; simpl;
    [reflexivity|]. f_equal. apply IH.
Qed.


(** ** Metadata extraction *)

Section Metadata.

Lemma truthy_nonempty (s : string) : Py.truthy s = true <-> s <> EmptyString.
Proof. destruct s; simpl; split; congruence. Qed.

Lemma keys_meta_title (soup : Bs4.soup) (meta : list (string * string))
      (k : string) :
  In k (Py.keys (meta_title soup meta))
  <-> In k (Py.keys meta) \/ (k = "title" /\ title_found soup).
Proof.
  unfold meta_title, title_found.
  destruct (Bs4.find _ soup) as [title|] eqn:Hfind.
  - destruct (Bs4.tag_string title) as [s|] eqn:Hs.
    + destruct (Py.truthy s) eqn:Ht.
      * rewrite keys_dict_set. apply truthy_nonempty in Ht.
        split; [intros [->|H]; [right; split; eauto|auto]|].
        intros [H|[-> _]]; auto.
      * split; auto. intros [H|[_ (t & s' & Heq & Hs' & Hne)]]; auto.
        injection Heq as <-. rewrite Hs in Hs'. injection Hs' as <-.
        apply truthy_nonempty in Hne. congruence.
    + split; auto. intros [H|[_ (t & s' & Heq & Hs' & _)]]; auto.
      injection Heq as <-. congruence.
  - split; auto. intros [H|[_ (t & s' & Heq & _)]]; auto. discriminate.
Qed.

Lemma keys_meta_author (soup : Bs4.soup) (meta : list (string * string))
      (k : string) :
  In k (Py.keys (meta_author soup meta))
  <-> In k (Py.keys meta) \/ (k = "author" /\ author_found soup).
Proof.
  unfold meta_author, author_found.
  destruct (meta_content "name" "author" soup) as [c|] eqn:Hmeta.
  - rewrite dict_get_set_same, keys_dict_set.
    split; [intros [->|H]; [right; split; [auto|left; discriminate]|auto]|].
    intros [H|[-> _]]; auto.
  - destruct (Py.dict_get "author" meta) as [a|] eqn:Hget.
    + split; auto. intros [H|[-> _]]; auto.
      apply dict_get_keys. congruence.
    + destruct (Bs4.find (Bs4.with_class "author") soup) as [span|] eqn:Hspan.
      * rewrite keys_dict_set.
        split; [intros [->|H]; [right; split; [auto|right; discriminate]|auto]|].
        intros [H|[-> _]]; auto.
      * split; auto. intros [H|[_ [H|H]]]; auto; congruence.
Qed.

Lemma keys_meta_date (soup : Bs4.soup) (meta : list (string * string))
      (k : string) :
  In k (Py.keys (meta_date soup meta))
  <-> In k (Py.keys meta) \/ (k = "date" /\ date_found soup).
Proof.
  unfold meta_date, date_found.
  destruct (meta_content "property" "article:published_time" soup)
    as [c|] eqn:Hmeta;
    destruct (Bs4.find (Bs4.named ["time"]) soup) as [t|] eqn:Htime;
    rewrite ?keys_dict_set.
  - split; [intros [->|[->|H]]; auto; right; split; auto; right; discriminate|].
    intros [H|[-> _]]; auto.
  - split; [intros [->|H]; auto; right; split; auto; right; discriminate|].
    intros [H|[-> _]]; auto.
  - split; [intros [->|H]; auto; right; split; auto; left; discriminate|].
    intros [H|[-> _]]; auto.
  - split; auto. intros [H|[_ [H|H]]]; auto; congruence.
Qed.

Lemma keys_extract_metadata (soup : Bs4.soup) (k : string) :
  In k (Py.keys (extract_metadata soup))
  <-> (k = "title" /\ title_found soup)
      \/ (k = "author" /\ author_found soup)
      \/ (k = "date" /\ date_found soup).
Proof.
  unfold extract_metadata.
  rewrite keys_meta_date, keys_meta_author, keys_meta_title. simpl.
  tauto.
Qed.

Lemma NoDup_keys_extract_metadata (soup : Bs4.soup) :
  NoDup (Py.keys (extract_metadata soup)).
Proof.
  assert (Ht : NoDup (Py.keys (meta_title soup []))).
  { unfold meta_title.
    repeat match goal with
           | |- context [match ?x with _ => _ end] => destruct x
           end; try apply NoDup_keys_dict_set; constructor. }
  assert (Ha : NoDup (Py.keys (meta_author soup (meta_title soup [])))).
  { unfold meta_author.
    repeat match goal with
           | |- context [match ?x with _ => _ end] => destruct x
           end; repeat apply NoDup_keys_dict_set; exact Ht. }
  unfold extract_metadata, meta_date.
  repeat match goal with
         | |- context [match ?x with _ => _ end] => destruct x
         end; repeat apply NoDup_keys_dict_set; exact Ha.
Qed.



End Metadata.


(** ** Processing one document *)

Section Processing.

Variable html_parser : string -> Bs4.soup.
Variable read_text : string -> string + string.

Lemma process_all_cons (file_path : string) (rest : list string)
      (split_text : string -> list string) :
  process_all html_parser read_text (file_path :: rest) split_text
  = process_file html_parser read_text file_path split_text None ++ process_all html_parser read_text rest split_text.
Proof. reflexivity. Qed.

Lemma process_all_app (before after : list string)
      (split_text : string -> list string) :
  process_all html_parser read_text (before ++ after) split_text
  = process_all html_parser read_text before split_text ++ process_all html_parser read_text after split_text.
Proof. apply flat_map_app. Qed.

(** What [process_file] does to a document that is read and has text. *)
Lemma process_file_chunks (file_path raw : string)
      (split_text : string -> list string) (source_url : option string) :
  read_text file_path = inl raw ->
  fst (clean_html html_parser raw) <> EmptyString ->
  process_file html_parser read_text file_path split_text source_url
  = OpenRead file_path
    :: map (fun ic =>
              WriteLine (entry_of (file_metadata (snd (clean_html html_parser raw)) file_path
                                                 source_url)
                                  (fst ic) (snd ic)))
           (Py.enumerate (split_text (fst (clean_html html_parser raw)))).
Proof.
  intros Hread Htext. unfold process_file.
  rewrite Hread. destruct (clean_html html_parser raw) as [text soup].
  simpl in *. apply truthy_nonempty in Htext. rewrite Htext. reflexivity.
Qed.

Lemma written_map_WriteLine {A} (f : A -> json) (xs : list A) :
  written (map (fun x => WriteLine (f x)) xs) = map f xs.
Proof.
  induction xs as [|x xs IH]; simpl; [reflexivity|]. f_equal. exact IH.
Qed.

(** C3: a document whose normalization yields empty text makes
    [process_file] print a note and return: it calls no splitter and
    writes no record, and the loop over the files goes on with the next
    document. *)
Theorem C3_empty_text_is_skipped :
  forall (file_path raw : string) (split_text : string -> list string)
         (source_url : option string) (rest : list string),
    read_text file_path = inl raw ->
    fst (clean_html html_parser raw) = EmptyString ->
    process_file html_parser read_text file_path split_text source_url
    = [OpenRead file_path;
       Print ("Note: no content extracted from " ++ file_path)]
    /\ written (process_file html_parser read_text file_path split_text
                             source_url) = []
    /\ process_all html_parser read_text (file_path :: rest) split_text
       = [OpenRead file_path;
          Print ("Note: no content extracted from " ++ file_path)]
         ++ process_all html_parser read_text rest split_text.
Proof.
  intros file_path raw split_text source_url rest Hread Htext.
  assert (Hp : forall src,
             process_file html_parser read_text file_path split_text src
             = [OpenRead file_path;
                Print ("Note: no content extracted from " ++ file_path)]).
  { intros src. unfold process_file. rewrite Hread.
    destruct (clean_html html_parser raw) as [text soup]. simpl in Htext.
    subst text. reflexivity. }
  split; [apply Hp|]. split; [rewrite Hp; reflexivity|].
  unfold process_all. cbn [flat_map]. rewrite Hp. reflexivity.
Qed.

(** C4: when a document yields the chunks [c_0 ... c_(N-1)], in the order
    the splitter returns them, the records written for it are N, the
    record at position [i] holds the content [c_i] and the [chunk] values
    read [0, 1, ..., N-1]. *)
Theorem C4_chunk_indices_count_from_zero :
  forall (file_path raw : string) (split_text : string -> list string)
         (source_url : option string),
    read_text file_path = inl raw ->
    fst (clean_html html_parser raw) <> EmptyString ->
    let chunks := split_text (fst (clean_html html_parser raw)) in
    let records :=
      written (process_file html_parser read_text file_path split_text
                            source_url) in
    map chunk_of records
    = map (fun i => Some (JInt (Z.of_nat i))) (seq 0 (length chunks))
    /\ map (member "content") records
       = map (fun c => Some (JString c)) chunks.
Proof.
  intros file_path raw split_text source_url Hread Htext chunks records.
  subst records.
  rewrite (process_file_chunks file_path raw split_text source_url Hread Htext).
  fold chunks.
  change (written (OpenRead file_path :: ?l)) with (written l).
  rewrite written_map_WriteLine, !map_map. unfold Py.enumerate. split.
  - rewrite <- (enumerate_from_fst 0 chunks), map_map.
    apply map_ext. intros [i c]. unfold chunk_of, entry_of. simpl.
    apply dict_get_set_same.
  - rewrite <- (enumerate_from_snd 0 chunks) at 2. rewrite map_map.
    apply map_ext. intros [i c]. reflexivity.
Qed.

(** C5: every record written has the two keys [content], a string, and
    [metadata], an object.  The metadata holds [filename] and [chunk],
    no key twice and none outside [title], [author], [date], [filename],
    [source], [chunk]; every value but [chunk] is a string; [title],
    [author] and [date] are there exactly when the document has them, and
    [source] exactly when a source URL is given. *)
Theorem C5_record_shape :
  forall (file_path : string) (split_text : string -> list string)
         (source_url : option string) (entry : json),
    In (WriteLine entry)
       (process_file html_parser read_text file_path split_text source_url) ->
    exists (raw content : string) (idx : nat) (metadata : list (string * json)),
      read_text file_path = inl raw
      /\ entry = JObject [("content", JString content);
                          ("metadata", JObject metadata)]
      /\ Py.dict_get "filename" metadata
         = Some (JString (OsPath.basename file_path))
      /\ Py.dict_get "chunk" metadata = Some (JInt (Z.of_nat idx))
      /\ NoDup (Py.keys metadata)
      /\ (forall k v, In (k, v) metadata ->
            k = "chunk" \/ exists s, v = JString s)
      /\ (forall k, In k (Py.keys metadata) <->
            k = "filename" \/ k = "chunk"
            \/ (k = "title"
                /\ title_found (snd (clean_html html_parser raw)))
            \/ (k = "author"
                /\ author_found (snd (clean_html html_parser raw)))
            \/ (k = "date"
                /\ date_found (snd (clean_html html_parser raw)))
            \/ (k = "source"
                /\ exists url, source_url = Some url /\ url <> EmptyString)).
Proof.
  intros file_path split_text source_url entry Hin.
  unfold process_file in Hin. destruct Hin as [Hin|Hin]; [discriminate|].
  destruct (read_text file_path) as [raw|e] eqn:Hread;
    [|destruct Hin as [Hin|[]]; discriminate].
  destruct (clean_html html_parser raw) as [text soup] eqn:Hclean.
  destruct (negb (Py.truthy text));
    [destruct Hin as [Hin|[]]; discriminate|].
  apply in_map_iff in Hin as ([idx chunk] & Heq & _).
  injection Heq as <-. simpl fst. simpl snd.
  set (meta := file_metadata soup file_path source_url).
  assert (Hkeys : forall k, In k (Py.keys meta) <->
            k = "filename"
            \/ (k = "title" /\ title_found soup)
            \/ (k = "author" /\ author_found soup)
            \/ (k = "date" /\ date_found soup)
            \/ (k = "source"
                /\ exists url, source_url = Some url /\ url <> EmptyString)).
  { intros k. subst meta. unfold file_metadata.
    destruct source_url as [url|].
    - destruct (Py.truthy url) eqn:Hurl.
      + rewrite !keys_dict_set, keys_extract_metadata.
        apply truthy_nonempty in Hurl.
        split; [intros [->|[->|H]]; [do 4 right; eauto| auto | tauto]|].
        intros [H|[H|[H|[H|[-> _]]]]]; tauto.
      + rewrite !keys_dict_set, keys_extract_metadata.
        split; [tauto|].
        intros [H|[H|[H|[H|[_ (u & Hu & Hne)]]]]]; try tauto.
        injection Hu as <-. apply truthy_nonempty in Hne. congruence.
    - rewrite !keys_dict_set, keys_extract_metadata.
      split; [tauto|].
      intros [H|[H|[H|[H|[_ (u & Hu & _)]]]]]; try tauto. discriminate. }
  assert (Hfile : Py.dict_get "filename" meta
                  = Some (OsPath.basename file_path)).
  { subst meta. unfold file_metadata. destruct source_url as [url|];
      [destruct (Py.truthy url)|];
      try rewrite (dict_get_set_other "filename" "source") by discriminate;
      apply dict_get_set_same. }
  assert (Hnodup : NoDup (Py.keys meta)).
  { subst meta. unfold file_metadata. destruct source_url as [url|];
      [destruct (Py.truthy url)|];
      repeat apply NoDup_keys_dict_set; apply NoDup_keys_extract_metadata. }
  exists raw, chunk, idx,
    (Py.dict_set "chunk" (JInt (Z.of_nat idx))
       (map (fun kv => (fst kv, JString (snd kv))) meta)).
  split; [reflexivity|]. split; [reflexivity|].
  split; [rewrite dict_get_set_other by discriminate;
          rewrite dict_get_map_string, Hfile; reflexivity|].
  split; [apply dict_get_set_same|].
  split; [apply NoDup_keys_dict_set; rewrite keys_map_string; exact Hnodup|].
  split.
  - intros k v Hkv. apply In_dict_set in Hkv as [[-> _]|Hkv]; [auto|].
    right. apply in_map_iff in Hkv as ([k2 v2] & H2 & _).
    injection H2 as <- <-. eauto.
  - intros k. rewrite keys_dict_set, keys_map_string, Hkeys.
    cbn [snd]. unfold clean_html in Hclean. injection Hclean as _ <-. tauto.
Qed.


End Processing.


(** ** Sorting *)

Lemma string_leb_trans (a b c : string) :
  String.leb a b = true -> String.leb b c = true -> String.leb a c = true.
Proof.
  unfold String.leb. revert b c.
  induction a as [|x a IH]; intros [|y b] [|z c]; simpl; try congruence.
  intros Hab Hbc.
  destruct (Ascii.compare x y) eqn:Hxy; try discriminate;
    destruct (Ascii.compare y z) eqn:Hyz; try discriminate.
  - apply Ascii.compare_eq_iff in Hxy, Hyz. subst.
    replace (Ascii.compare z z) with Eq
      by (symmetry; unfold Ascii.compare; apply N.compare_refl).
    apply IH with b; assumption.
  - apply Ascii.compare_eq_iff in Hxy. subst. rewrite Hyz. reflexivity.
  - apply Ascii.compare_eq_iff in Hyz. subst. rewrite Hxy. reflexivity.
  - replace (Ascii.compare x z) with Lt; [reflexivity|].
    symmetry. unfold Ascii.compare in *.
    rewrite N.compare_lt_iff in *. lia.
Qed.

Lemma insert_sorted_perm (x : string) (xs : list string) :
  Permutation (x :: xs) (Py.insert_sorted x xs).
Proof.
  induction xs as [|y xs IH]; simpl; [apply Permutation_refl|].
  destruct (String.leb x y); [apply Permutation_refl|].
  eapply perm_trans; [apply perm_swap|]. apply perm_skip, IH.
Qed.

Lemma sorted_perm (xs : list string) : Permutation xs (Py.sorted xs).
Proof.
  induction xs as [|x xs IH]; simpl; [constructor|].
  eapply perm_trans; [apply perm_skip, IH|]. apply insert_sorted_perm.
Qed.

Lemma sorted_In (x : string) (xs : list string) :
  In x (Py.sorted xs) <-> In x xs.
Proof.
  split; apply Permutation_in;
    [apply Permutation_sym|]; apply sorted_perm.
Qed.

Lemma insert_sorted_ordered (x : string) (xs : list string) :
  StronglySorted str_le xs -> StronglySorted str_le (Py.insert_sorted x xs).
Proof.
  induction 1 as [|y xs Hxs IH Hy]; simpl.
  - repeat constructor.
  - destruct (String.leb x y) eqn:Hle.
    + constructor; [constructor; assumption|].
      constructor; [exact Hle|].
      eapply Forall_impl; [|exact Hy].
      intros z Hz. eapply string_leb_trans; eassumption.
    + constructor; [exact IH|].
      eapply Permutation_Forall; [apply insert_sorted_perm|].
      constructor; [|exact Hy].
      destruct (String.leb_total x y) as [H|H]; [congruence|exact H].
Qed.

Lemma sorted_ordered (xs : list string) : StronglySorted str_le (Py.sorted xs).
Proof.
  induction xs as [|x xs IH]; simpl; [constructor|].
  apply insert_sorted_ordered, IH.
Qed.

(** Two ascending arrangements of the same strings are the same list. *)
Lemma ordered_perm_unique (l l' : list string) :
  StronglySorted str_le l -> StronglySorted str_le l' ->
  Permutation l l' -> l = l'.
Proof.
  intros Hl. revert l'. induction Hl as [|x xs Hxs IH Hx]; intros l' Hl' Hp.
  - apply Permutation_nil in Hp. congruence.
  - destruct Hl' as [|y ys Hys Hy].
    + apply Permutation_sym, Permutation_nil in Hp. discriminate.
    + assert (Hxy : str_le x y).
      { assert (Hin : In y (x :: xs))
          by (eapply Permutation_in; [apply Permutation_sym, Hp|left; auto]).
        destruct Hin as [->|Hin].
        - destruct (String.leb_total y y); assumption.
        - rewrite Forall_forall in Hx. auto. }
      assert (Hyx : str_le y x).
      { assert (Hin : In x (y :: ys))
          by (eapply Permutation_in; [apply Hp|left; auto]).
        destruct Hin as [->|Hin].
        - destruct (String.leb_total x x); assumption.
        - rewrite Forall_forall in Hy. auto. }
      assert (x = y) by (apply String.leb_antisym; assumption). subst y.
      f_equal. apply IH; [assumption|].
      eapply Permutation_cons_inv, Hp.
Qed.

Lemma sorted_perm_invariant (l l' : list string) :
  Permutation l l' -> Py.sorted l = Py.sorted l'.
Proof.
  intros Hp. apply ordered_perm_unique; try apply sorted_ordered.
  eapply perm_trans; [apply Permutation_sym, sorted_perm|].
  eapply perm_trans; [exact Hp|apply sorted_perm].
Qed.

(** ** File discovery *)








(** The loop of [gather_files], path by path. *)

Section Gathering.

Variable lookup : string -> option fs_node.

Lemma gather_step_eq (files : list string) (printed : list event)
      (path : string) :
  gather_step lookup (files, printed) path
  = (files ++ found_under lookup path,
     printed
       ++ if missing lookup path
          then [Print ("Skipping non-existent path: " ++ path)]
          else []).
Proof.
  unfold gather_step, found_under, missing, isdir, isfile.
  destruct (lookup path) as [[| |entries]|]; cbn [orb negb];
    rewrite ?app_nil_r; reflexivity.
Qed.

Lemma gather_loop (paths : list string) (files : list string)
      (printed : list event) :
  fold_left (gather_step lookup) paths (files, printed)
  = (files ++ flat_map (found_under lookup) paths,
     printed
       ++ map (fun p => Print ("Skipping non-existent path: " ++ p))
              (filter (missing lookup) paths)).
Proof.
  revert files printed.
  induction paths as [|p paths IH]; intros files printed;
    cbn [fold_left flat_map filter].
  - cbn [map]. rewrite !app_nil_r. reflexivity.
  - rewrite gather_step_eq, IH, <- !app_assoc.
    destruct (missing lookup p); reflexivity.
Qed.

Lemma gather_files_eq (paths : list string) :
  gather_files lookup paths
  = (Py.sorted (flat_map (found_under lookup) paths),
     map (fun p => Print ("Skipping non-existent path: " ++ p))
         (filter (missing lookup) paths)).
Proof.
  unfold gather_files. rewrite gather_loop. reflexivity.
Qed.


(** C10: a path argument that is a regular file is returned, whatever
    its name: the test on the extension is applied only to the names met
    while walking a directory. *)
Theorem C10_named_file_is_kept :
  forall (paths : list string) (path : string),
    In path paths ->
    lookup path = Some RegularFile ->
    In path (fst (gather_files lookup paths)).
Proof.
  intros paths path Hin Hfile.
  rewrite gather_files_eq. simpl fst.
  apply sorted_In, in_flat_map. exists path. split; [exact Hin|].
  unfold found_under. rewrite Hfile. left. reflexivity.
Qed.

Lemma gather_files_prints (paths : list string) :
  Forall is_print (snd (gather_files lookup paths)).
Proof.
  rewrite gather_files_eq. simpl snd.
  apply Forall_forall. intros e He.
  apply in_map_iff in He as (p & <- & _). exact I.
Qed.

End Gathering.

(** ** The date of a document *)



(** ** The document tree *)

Section Trees.

Import Bs4.

Lemma node_forall_ind (P : node -> Prop) :
  (forall t, P (NavigableString t)) ->
  (forall t, P (Comment t)) ->
  (forall i nm ats cs, Forall P cs -> P (Tag i nm ats cs)) ->
  forall n, P n.
Proof.
  intros Hstring Hcomment Htag.
  fix IH 1. intros [t|t|i nm ats cs]; [apply Hstring|apply Hcomment|].
  apply Htag. induction cs as [|c cs IHcs]; constructor;
    [apply IH|exact IHcs].
Qed.

(** Induction on a tree: an element is reached once its contents and the
    elements that follow it are known. *)
Lemma soup_ind (P : soup -> Prop) :
  P [] ->
  (forall t rest, P rest -> P (NavigableString t :: rest)) ->
  (forall t rest, P rest -> P (Comment t :: rest)) ->
  (forall i nm ats cs rest, P cs -> P rest -> P (Tag i nm ats cs :: rest)) ->
  forall s, P s.
Proof.
  intros Hnil Hstring Hcomment Htag.
  assert (Hnode : forall n rest, P rest -> P (n :: rest)).
  { induction n as [t|t|i nm ats cs IH] using node_forall_ind;
      intros rest Hrest; auto.
    apply Htag; [|exact Hrest].
    induction IH as [|c cs Hc _ IHcs]; auto. }
  induction s as [|n s IH]; auto.
Qed.

Lemma subtree_tag i nm ats cs :
  subtree (Tag i nm ats cs) = Tag i nm ats cs :: descendants cs.
Proof.
  reflexivity.
Qed.

Lemma descendants_tag i nm ats cs rest :
  descendants (Tag i nm ats cs :: rest)
  = Tag i nm ats cs :: descendants cs ++ descendants rest.
Proof.
  unfold descendants at 1. cbn [flat_map]. rewrite subtree_tag. reflexivity.
Qed.

Lemma detach_in_tag i j nm ats cs :
  detach_in i (Tag j nm ats cs) = Tag j nm ats (detach i cs).
Proof.
  cbn [detach_in]. f_equal.
  induction cs as [|c cs IH]; [reflexivity|].
  cbn [detach]. rewrite <- IH. reflexivity.
Qed.

Lemma detach_tag i j nm ats cs rest :
  detach i (Tag j nm ats cs :: rest)
  = if i =? j then detach i rest
    else Tag j nm ats (detach i cs) :: detach i rest.
Proof.
  cbn [detach is_object]. rewrite detach_in_tag. reflexivity.
Qed.


Lemma labels_tag i nm ats cs rest :
  labels (Tag i nm ats cs :: rest)
  = LTag i nm ats :: labels cs ++ labels rest.
Proof.
  unfold labels. rewrite descendants_tag. simpl.
  rewrite map_app. reflexivity.
Qed.

Lemma label_of_tag (names : list string) (n : node) i nm ats :
  label_of n = LTag i nm ats ->
  named names n = existsb (String.eqb nm) names /\ identity n = [i].
Proof.
  destruct n; simpl; try discriminate.
  intros H. injection H as -> -> ->. auto.
Qed.











End Trees.


(** ** Cleaning the document *)

Section Cleaning.

Import Bs4.









End Cleaning.




(** ** The whole run *)

Section Running.

Variable html_parser : string -> Bs4.soup.
Variable read_text : string -> string + string.
Variable lookup : string -> option fs_node.
Variable separators : list string.

(** With files to process and a configuration that the splitter accepts,
    [main] opens the output, processes every file in order and returns. *)
Lemma main_processes_all (args : arguments) :
  fst (gather_files lookup (input args)) <> [] ->
  (0 <= chunk_overlap args < chunk_size args)%Z ->
  exists split_text,
    Splitter.RecursiveCharacterTextSplitter
      separators (chunk_size args) (chunk_overlap args)
    = Splitter.Constructed split_text
    /\ main html_parser read_text lookup separators args
       = (snd (gather_files lookup (input args))
            ++ [OpenWrite (output args)]
            ++ process_all html_parser read_text
                 (fst (gather_files lookup (input args))) split_text
            ++ [Print ("Done. Output written to " ++ output args)],
          Returned).
Proof.
  intros Hfiles Hconf.
  destruct (splitter_constructed separators _ _ Hconf) as [valid Heq].
  eexists. split; [exact Heq|].
  unfold main. destruct (gather_files lookup (input args)) as [files printed].
  simpl in *. destruct files; [contradiction|]. rewrite Heq. reflexivity.
Qed.

(** C2, as the code has it: with [chunk_overlap >= chunk_size], [main]
    opens no file, for reading or for writing, and writes nothing: all it
    does is print.  When at least one input file is found, the
    construction of the splitter raises the configuration error; when none
    is found, [main] prints that no input file was found and returns
    before the configuration is looked at. *)
Theorem C2_bad_overlap_touches_no_file :
  forall args : arguments,
    (chunk_overlap args >= chunk_size args)%Z ->
    Forall is_print (fst (main html_parser read_text lookup separators args))
    /\ main html_parser read_text lookup separators args
       = match fst (gather_files lookup (input args)) with
         | [] =>
             (snd (gather_files lookup (input args))
                ++ [Print "No input files found."],
              Returned)
         | _ :: _ => (snd (gather_files lookup (input args)), Raised)
         end.
Proof.
  intros args Hbad.
  pose proof (gather_files_prints lookup (input args)) as Hprints.
  unfold main.
  destruct (gather_files lookup (input args)) as [files printed].
  simpl in *. destruct files as [|f files].
  - split; [|reflexivity]. simpl. apply Forall_app. split; [exact Hprints|].
    repeat constructor.
  - rewrite (splitter_rejected separators _ _ Hbad). split; [|reflexivity].
    exact Hprints.
Qed.

End Running.


(** ** The theorems on the sample site *)

Lemma C1_chunks_fit_witness :
  (0 <= 5 < 40)%Z
  /\ exists split_text,
      Splitter.RecursiveCharacterTextSplitter Sample.separators 40 5
      = Splitter.Constructed split_text
      /\ forall text chunk,
          In chunk (split_text text) ->
          (Z.of_nat (String.length chunk) <= 40)%Z.
Proof.
  assert (Hconf : (0 <= 5 < 40)%Z) by lia.
  split; [exact Hconf|].
  destruct (C1_chunks_fit_chunk_size Sample.separators 40 5 Hconf)
    as (valid & split_text & Heq & Hfits & _).
  exists split_text. split; assumption.
Defined.

(** C2, as the claim has it, fails: with no input file found the run ends
    normally, although the overlap exceeds the chunk size. *)
Lemma C2_no_files_no_rejection :
  ~ (forall html_parser read_text lookup separators (args : arguments),
        (chunk_overlap args >= chunk_size args)%Z ->
        snd (main html_parser read_text lookup separators args) = Raised).
Proof.
  intros H.
  specialize (H Sample.html_parser Sample.read_text Sample.lookup
                Sample.separators Sample.bad_overlap).
  assert (Hbad : (chunk_overlap Sample.bad_overlap >= chunk_size Sample.bad_overlap)%Z)
    by (simpl; lia).
  specialize (H Hbad). vm_compute in H. discriminate.
Qed.

Lemma C2_bad_overlap_witness :
  (chunk_overlap Sample.bad_overlap >= chunk_size Sample.bad_overlap)%Z
  /\ Forall is_print
            (fst (main Sample.html_parser Sample.read_text Sample.lookup
                       Sample.separators Sample.bad_overlap)).
Proof.
  assert (Hbad : (chunk_overlap Sample.bad_overlap >= chunk_size Sample.bad_overlap)%Z)
    by (simpl; lia).
  split; [exact Hbad|].
  exact (proj1 (C2_bad_overlap_touches_no_file
                  Sample.html_parser Sample.read_text Sample.lookup
                  Sample.separators Sample.bad_overlap Hbad)).
Defined.

Lemma C3_empty_text_witness :
  process_file Sample.html_parser Sample.read_text "empty.html" Sample.whole
               None
  = [OpenRead "empty.html"; Print "Note: no content extracted from empty.html"].
Proof.
  exact (proj1 (C3_empty_text_is_skipped
                  Sample.html_parser Sample.read_text "empty.html" ""
                  Sample.whole None [] eq_refl eq_refl)).
Defined.

Lemma C4_chunk_indices_witness :
  map chunk_of
      (written (process_file Sample.html_parser Sample.read_text
                             "site/page.html" Sample.halves None))
  = [Some (JInt 0); Some (JInt 1)].
Proof.
  refine (proj1 (C4_chunk_indices_count_from_zero
                   Sample.html_parser Sample.read_text "site/page.html"
                   "<p>Hello world</p>" Sample.halves None eq_refl _)).
  vm_compute. discriminate.
Defined.

Lemma C5_record_shape_witness :
  exists raw content idx metadata,
    Sample.read_text "site/page.html" = inl raw
    /\ JObject [("content", JString "Hello world");
                ("metadata", JObject [("filename", JString "page.html");
                                      ("chunk", JInt 0)])]
       = JObject [("content", JString content); ("metadata", JObject metadata)]
    /\ Py.dict_get "chunk" metadata = Some (JInt (Z.of_nat idx)).
Proof.
  destruct (C5_record_shape
              Sample.html_parser Sample.read_text "site/page.html"
              Sample.whole None
              (JObject [("content", JString "Hello world");
                        ("metadata", JObject [("filename", JString "page.html");
                                              ("chunk", JInt 0)])]))
    as (raw & content & idx & metadata & Hread & Hentry & _ & Hchunk & _).
  - vm_compute. auto.
  - exists raw, content, idx, metadata. auto.
Defined.



Lemma C10_named_file_witness :
  In "README.txt" (fst (gather_files Sample.lookup ["site"; "README.txt"])).
Proof.
  apply (C10_named_file_is_kept Sample.lookup ["site"; "README.txt"]
                                "README.txt").
  - simpl. auto.
  - reflexivity.
Defined.


(** ** Stripping and splitting into lines *)

Lemma lstrip_head (s : string) :
  match Py.lstrip s with
  | EmptyString => True
  | String c _ => Py.isspace c = false
  end.
Proof.
  induction s as [|c s IH]; cbn [Py.lstrip]; [exact I|].
  destruct (Py.isspace c) eqn:Hc; [exact IH|exact Hc].
Qed.

Lemma lstrip_fixed (c : ascii) (s : string) :
  Py.isspace c = false -> Py.lstrip (String c s) = String c s.
Proof. intros H. cbn [Py.lstrip]. rewrite H. reflexivity. Qed.

Lemma rstrip_head (c : ascii) (s : string) :
  Py.isspace c = false -> exists kept, Py.rstrip (String c s) = String c kept.
Proof.
  intros H. cbn [Py.rstrip]. destruct (Py.rstrip s) as [|k ks].
  - rewrite H. eauto.
  - eauto.
Qed.

Lemma rstrip_idempotent (s : string) : Py.rstrip (Py.rstrip s) = Py.rstrip s.
Proof.
  induction s as [|c s IH]; [reflexivity|].
  cbn [Py.rstrip]. destruct (Py.rstrip s) as [|k ks] eqn:Hs.
  - destruct (Py.isspace c) eqn:Hc; [reflexivity|].
    cbn [Py.rstrip]. rewrite Hc. reflexivity.
  - change (Py.rstrip (String c (String k ks)))
      with (match Py.rstrip (String k ks) with
            | EmptyString =>
                if Py.isspace c then EmptyString else String c EmptyString
            | kept => String c kept
            end).
    rewrite IH. reflexivity.
Qed.

Lemma strip_idempotent (s : string) : Py.strip (Py.strip s) = Py.strip s.
Proof.
  unfold Py.strip. pose proof (lstrip_head s) as Hhead.
  destruct (Py.lstrip s) as [|c t]; [reflexivity|].
  destruct (rstrip_head c t Hhead) as [kept Hkept].
  rewrite Hkept, (lstrip_fixed c kept Hhead), <- Hkept.
  apply rstrip_idempotent.
Qed.

Lemma lstrip_all_space (s : string) :
  Py.lstrip s = EmptyString <-> all_space s = true.
Proof.
  induction s as [|c s IH]; cbn [Py.lstrip all_space]; [tauto|].
  destruct (Py.isspace c); cbn [andb]; [exact IH|].
  split; discriminate.
Qed.

Lemma rstrip_nonempty (c : ascii) (s : string) :
  Py.isspace c = false -> Py.rstrip (String c s) <> EmptyString.
Proof.
  intros H. destruct (rstrip_head c s H) as [kept ->]. discriminate.
Qed.

(** Stripping leaves nothing exactly of the strings of whitespace. *)
Lemma strip_all_space (s : string) :
  Py.strip s = EmptyString <-> all_space s = true.
Proof.
  unfold Py.strip. rewrite <- lstrip_all_space.
  pose proof (lstrip_head s) as Hhead.
  destruct (Py.lstrip s) as [|c t]; [tauto|].
  split; [|discriminate].
  intros H. exfalso. exact (rstrip_nonempty c t Hhead H).
Qed.

Lemma all_space_app (a b : string) :
  all_space (a ++ b) = all_space a && all_space b.
Proof.
  induction a as [|c a IH]; cbn [String.append all_space]; [reflexivity|].
  rewrite IH, andb_assoc. reflexivity.
Qed.

Lemma linebreak_is_space (c : ascii) :
  Py.is_linebreak c = true -> Py.isspace c = true.
Proof.
  unfold Py.is_linebreak, Py.isspace. intros H.
  repeat rewrite ?orb_true_iff, ?andb_true_iff, ?Nat.leb_le, ?Nat.eqb_eq
    in *. lia.
Qed.

Lemma return_is_space (c : ascii) : Py.code c = 13 -> Py.isspace c = true.
Proof.
  unfold Py.isspace. intros ->. reflexivity.
Qed.

Lemma last_line_all_space (cur : string) :
  forallb all_space (if Py.truthy cur then [cur] else []) = all_space cur.
Proof.
  destruct cur; cbn [Py.truthy forallb]; [reflexivity|apply andb_true_r].
Qed.

Lemma splitlines_from_all_space (n : nat) :
  forall s cur,
    String.length s <= n ->
    (forallb all_space (Py.splitlines_from cur s) = true
     <-> all_space cur = true /\ all_space s = true).
Proof.
  induction n as [|n IH]; intros [|c s] cur Hlen; cbn [String.length] in Hlen;
    try lia; cbn [Py.splitlines_from all_space].
  - rewrite last_line_all_space. tauto.
  - rewrite last_line_all_space. tauto.
  - assert (Hbreak : forall rest,
               String.length rest <= n ->
               Py.isspace c = true ->
               (forallb all_space (cur :: Py.splitlines_from EmptyString rest)
                = true
                <-> all_space cur = true
                    /\ Py.isspace c && all_space rest = true)).
    { intros rest Hrest Hc. cbn [forallb].
      rewrite andb_true_iff, (IH rest EmptyString Hrest), Hc. cbn. tauto. }
    destruct (Nat.eqb_spec (Py.code c) 13) as [Hcr|Hnotcr].
    + pose proof (return_is_space c Hcr) as Hc.
      destruct s as [|c' s'].
      * apply (Hbreak EmptyString); [cbn; lia|exact Hc].
      * destruct (Nat.eqb_spec (Py.code c') 10) as [Hlf|Hnotlf].
        -- cbn [forallb]. rewrite andb_true_iff.
           rewrite (IH s' EmptyString) by (cbn [String.length] in Hlen; lia).
           rewrite Hc. cbn [all_space andb].
           assert (Hc' : Py.isspace c' = true)
             by (unfold Py.isspace; rewrite Hlf; reflexivity).
           rewrite Hc'. cbn. tauto.
        -- apply (Hbreak (String c' s')); [lia|exact Hc].
    + destruct (Py.is_linebreak c) eqn:Hlb.
      * apply Hbreak; [lia|apply linebreak_is_space, Hlb].
      * rewrite (IH s (cur ++ String c EmptyString)%string) by lia.
        rewrite all_space_app. cbn [all_space].
        rewrite !andb_true_iff. tauto.
Qed.

(** The lines of a text are all blank exactly when the text is whitespace. *)
Lemma splitlines_all_space (text : string) :
  forallb all_space (Py.splitlines text) = true <-> all_space text = true.
Proof.
  unfold Py.splitlines.
  rewrite (splitlines_from_all_space (String.length text) text EmptyString)
    by lia.
  cbn. tauto.
Qed.

Lemma one_line_app (a b : string) :
  one_line (a ++ b) = one_line a && one_line b.
Proof.
  induction a as [|c a IH]; cbn [String.append one_line]; [reflexivity|].
  rewrite IH, andb_assoc. reflexivity.
Qed.

Lemma splitlines_from_one_line (n : nat) :
  forall s cur,
    String.length s <= n ->
    one_line cur = true ->
    forallb one_line (Py.splitlines_from cur s) = true.
Proof.
  induction n as [|n IH]; intros [|c s] cur Hlen Hcur;
    cbn [String.length] in Hlen; try lia; cbn [Py.splitlines_from].
  - destruct cur; cbn [Py.truthy forallb]; [reflexivity|].
    rewrite Hcur. reflexivity.
  - destruct cur; cbn [Py.truthy forallb]; [reflexivity|].
    rewrite Hcur. reflexivity.
  - destruct (Py.code c =? 13).
    + destruct s as [|c' s'].
      * cbn [Py.splitlines_from Py.truthy forallb]. rewrite Hcur. reflexivity.
      * destruct (Py.code c' =? 10); cbn [forallb]; rewrite Hcur;
          cbn [andb]; apply IH; cbn [String.length] in *; try lia; reflexivity.
    + destruct (Py.is_linebreak c) eqn:Hlb.
      * cbn [forallb]. rewrite Hcur. cbn [andb]. apply IH; [lia|reflexivity].
      * apply IH; [lia|]. rewrite one_line_app, Hcur. cbn [one_line].
        rewrite Hlb. reflexivity.
Qed.

Lemma rstrip_one_line (s : string) :
  one_line s = true -> one_line (Py.rstrip s) = true.
Proof.
  induction s as [|c s IH]; [reflexivity|].
  cbn [one_line Py.rstrip]. intros H. apply andb_prop in H as [Hc Hs].
  specialize (IH Hs). destruct (Py.rstrip s) as [|k ks].
  - destruct (Py.isspace c); [reflexivity|]. cbn [one_line]. rewrite Hc.
    reflexivity.
  - cbn [one_line] in *. rewrite Hc, IH. reflexivity.
Qed.

Lemma lstrip_one_line (s : string) :
  one_line s = true -> one_line (Py.lstrip s) = true.
Proof.
  induction s as [|c s IH]; [reflexivity|].
  cbn [one_line Py.lstrip]. intros H.
  destruct (Py.isspace c); [|exact H].
  apply andb_prop in H as [_ Hs]. exact (IH Hs).
Qed.

Lemma strip_one_line (s : string) :
  one_line s = true -> one_line (Py.strip s) = true.
Proof.
  intros H. apply rstrip_one_line, lstrip_one_line, H.
Qed.


(** ** The text of a cleaned document *)

Lemma join_cons (sep x y : string) (rest : list string) :
  Py.join sep (x :: y :: rest) = (x ++ sep ++ Py.join sep (y :: rest))%string.
Proof. reflexivity. Qed.

Lemma all_space_join (sep : string) (parts : list string) :
  all_space sep = true ->
  all_space (Py.join sep parts) = forallb all_space parts.
Proof.
  intros Hsep. induction parts as [|x [|y rest] IH].
  - reflexivity.
  - cbn [forallb]. rewrite andb_true_r. reflexivity.
  - rewrite join_cons, !all_space_app, Hsep, IH. reflexivity.
Qed.

Lemma join_empty (sep : string) (parts : list string) :
  Forall (fun p => p <> EmptyString) parts ->
  Py.join sep parts = EmptyString -> parts = [].
Proof.
  intros Hparts. destruct Hparts as [|x rest Hx _]; [reflexivity|].
  destruct rest as [|y rest].
  - intros H. cbn in H. contradiction.
  - rewrite join_cons. destruct x; [contradiction|discriminate].
Qed.

Lemma texts_In (t : string) (s : Bs4.soup) :
  In t (flat_map Bs4.text_of (Bs4.descendants s))
  <-> In (Bs4.NavigableString t) (Bs4.descendants s).
Proof.
  rewrite in_flat_map. split.
  - intros ([u|u|i nm ats cs] & Hin & Ht); cbn in Ht; try contradiction.
    destruct Ht as [<-|[]]. exact Hin.
  - intros H. exists (Bs4.NavigableString t). split; [exact H|left; reflexivity].
Qed.

Lemma kept_lines_nonempty (lines : list string) :
  Forall (fun p => p <> EmptyString)
         (map Py.strip (filter (fun line => Py.truthy (Py.strip line)) lines)).
Proof.
  apply Forall_forall. intros p Hp.
  apply in_map_iff in Hp as (line & <- & Hline).
  apply filter_In in Hline as [_ Ht]. apply truthy_nonempty, Ht.
Qed.

Lemma no_line_kept (lines : list string) :
  filter (fun line => Py.truthy (Py.strip line)) lines = []
  <-> forallb all_space lines = true.
Proof.
  induction lines as [|l lines IH]; cbn [filter forallb]; [tauto|].
  destruct (Py.truthy (Py.strip l)) eqn:Ht.
  - split; [discriminate|]. intros H. apply andb_prop in H as [Hl _].
    apply strip_all_space in Hl. rewrite Hl in Ht. discriminate.
  - assert (Hl : all_space l = true).
    { apply strip_all_space. destruct (Py.strip l); [reflexivity|discriminate]. }
    rewrite Hl. exact IH.
Qed.

Lemma newline_all_space : all_space newline = true.
Proof. reflexivity. Qed.

Section CleanText.

Variable html_parser : string -> Bs4.soup.

(** X1: the text that [clean_html] returns is empty exactly when every
    string left in the cleaned tree is made of whitespace only (in
    particular when none is left). *)
Theorem X1_clean_text_empty_iff_blank :
  forall html_content : string,
    fst (clean_html html_parser html_content) = EmptyString
    <-> forall t,
          In (Bs4.NavigableString t)
             (Bs4.descendants (snd (clean_html html_parser html_content))) ->
          all_space t = true.
Proof.
  intros html_content. unfold clean_html. cbn [fst snd].
  set (soup := clean_soup (html_parser html_content)).
  unfold clean_text, Bs4.get_text.
  set (texts := flat_map Bs4.text_of (Bs4.descendants soup)).
  assert (Hblank : forallb all_space texts = true
                   <-> forall t,
                         In (Bs4.NavigableString t) (Bs4.descendants soup) ->
                         all_space t = true).
  { rewrite forallb_forall. split; intros H t Ht; apply H;
      apply texts_In; exact Ht. }
  rewrite <- Hblank, <- (all_space_join newline texts newline_all_space).
  rewrite <- splitlines_all_space, <- no_line_kept.
  split.
  - intros H. apply join_empty in H; [|apply kept_lines_nonempty].
    destruct (filter _ _); [reflexivity|discriminate].
  - intros ->. reflexivity.
Qed.

(** X2: the text that [clean_html] returns is a sequence of lines joined by
    single newlines; no line is empty, none begins or ends with whitespace
    (stripping it changes nothing) and none holds a line boundary. *)
Theorem X2_clean_text_lines_are_stripped :
  forall html_content : string,
    exists lines : list string,
      fst (clean_html html_parser html_content) = Py.join newline lines
      /\ Forall (fun line =>
                   line <> EmptyString
                   /\ Py.strip line = line
                   /\ one_line line = true) lines.
Proof.
  intros html_content. unfold clean_html, clean_text. cbn [fst].
  eexists. split; [reflexivity|].
  apply Forall_forall. intros p Hp.
  apply in_map_iff in Hp as (line & <- & Hline).
  apply filter_In in Hline as [Hin Ht].
  split; [apply truthy_nonempty, Ht|]. split; [apply strip_idempotent|].
  apply strip_one_line.
  pose proof (splitlines_from_one_line
                (String.length
                   (Bs4.get_text newline (clean_soup (html_parser html_content))))
                _ EmptyString (Nat.le_refl _) eq_refl) as Hlines.
  rewrite forallb_forall in Hlines. apply Hlines, Hin.
Qed.

End CleanText.


(** ** What cleaning keeps *)

Lemma subseq_refl {A} (l : list A) : subseq l l.
Proof. induction l; constructor; assumption. Qed.

Lemma subseq_nil_l {A} (l : list A) : subseq [] l.
Proof. induction l; constructor; assumption. Qed.

Lemma subseq_app {A} (a a' b b' : list A) :
  subseq a a' -> subseq b b' -> subseq (a ++ b) (a' ++ b').
Proof.
  intros Ha Hb. induction Ha; cbn [app]; try constructor; assumption.
Qed.

Lemma subseq_trans {A} (a b c : list A) :
  subseq a b -> subseq b c -> subseq a c.
Proof.
  intros Hab Hbc. revert a Hab.
  induction Hbc as [|x b c Hbc IH|x b c Hbc IH]; intros a Hab.
  - exact Hab.
  - inversion Hab; subst; constructor; auto.
  - constructor. auto.
Qed.

Lemma subseq_In {A} (a b : list A) (x : A) : subseq a b -> In x a -> In x b.
Proof.
  induction 1; cbn [In]; intuition.
Qed.

Section Kept.

Import Bs4.

Lemma labels_string t rest :
  labels (NavigableString t :: rest) = LString t :: labels rest.
Proof. reflexivity. Qed.

Lemma labels_comment t rest :
  labels (Comment t :: rest) = LComment t :: labels rest.
Proof. reflexivity. Qed.

Lemma detach_subseq (i : nat) (s : soup) :
  subseq (labels (detach i s)) (labels s).
Proof.
  induction s as [|t rest IH|t rest IH|j nm ats cs rest IHcs IHrest]
    using soup_ind.
  - constructor.
  - cbn [detach is_object detach_in]. rewrite !labels_string.
    constructor. exact IH.
  - cbn [detach is_object detach_in]. rewrite !labels_comment.
    constructor. exact IH.
  - rewrite detach_tag, labels_tag. destruct (i =? j).
    + constructor. change (labels (detach i rest)) with ([] ++ labels (detach i rest)).
      apply subseq_app; [apply subseq_nil_l|exact IHrest].
    + rewrite labels_tag. constructor. apply subseq_app; assumption.
Qed.

Lemma decompose_subseq (tag : node) (s : soup) :
  subseq (labels (decompose tag s)) (labels s).
Proof.
  destruct tag; cbn [decompose]; [apply subseq_refl..|apply detach_subseq].
Qed.

Lemma remove_scripts_subseq (s : soup) :
  subseq (labels (remove_scripts s)) (labels s).
Proof.
  unfold remove_scripts.
  generalize (find_all (named ["script"; "style"; "noscript"]) s) as tags.
  intros tags. revert s. induction tags as [|t tags IH]; intros s;
    cbn [fold_left]; [apply subseq_refl|].
  eapply subseq_trans; [apply IH|apply decompose_subseq].
Qed.

Lemma remove_found_subseq (tags : list string) (s : soup) :
  subseq (labels (fold_left remove_found tags s)) (labels s).
Proof.
  revert s. induction tags as [|t tags IH]; intros s; cbn [fold_left];
    [apply subseq_refl|].
  eapply subseq_trans; [apply IH|]. unfold remove_found.
  destruct (find (named [t]) s); [apply decompose_subseq|apply subseq_refl].
Qed.

(** X3: cleaning only takes away.  Read from left to right, the strings,
    comments and tags of the cleaned tree (each tag with its identity, name
    and attributes) are those of the parsed tree with some left out, in the
    same order: nothing is added, altered or moved. *)
Theorem X3_cleaning_only_removes :
  forall s : soup, subseq (labels (clean_soup s)) (labels s).
Proof.
  intros s. unfold clean_soup.
  eapply subseq_trans; [apply remove_found_subseq|apply remove_scripts_subseq].
Qed.

Lemma find_all_none (matches : node -> bool) (s : soup) :
  (forall n, In n (descendants s) -> matches n = false) ->
  find_all matches s = [].
Proof.
  intros H. unfold find_all.
  induction (descendants s) as [|n l IH]; [reflexivity|].
  cbn [filter]. rewrite (H n (or_introl eq_refl)).
  apply IH. intros m Hm. apply H. right. exact Hm.
Qed.

Lemma named_weaken (names : list string) (nm : string) (n : node) :
  In nm names -> named names n = false -> named [nm] n = false.
Proof.
  destruct n as [t|t|i nm' ats cs]; cbn [named]; auto.
  intros Hin Hfalse. cbn [existsb]. rewrite orb_false_r.
  destruct (String.eqb_spec nm' nm) as [->|]; [|reflexivity].
  rewrite <- Hfalse. symmetry. apply existsb_exists.
  exists nm. split; [exact Hin|apply String.eqb_refl].
Qed.

(** X4: a tree that holds no script, style, noscript, header, footer, nav,
    aside or form tag comes out of the cleaning as it went in. *)
Theorem X4_nothing_to_clean :
  forall s : soup,
    (forall n, In n (descendants s) ->
               named (script_names ++ boilerplate) n = false) ->
    clean_soup s = s.
Proof.
  intros s Hnone.
  assert (Hname : forall nm n,
             In nm (script_names ++ boilerplate) ->
             In n (descendants s) -> named [nm] n = false).
  { intros nm n Hnm Hn. eapply named_weaken; [exact Hnm|]. apply Hnone, Hn. }
  assert (Hscripts : remove_scripts s = s).
  { unfold remove_scripts. rewrite find_all_none; [reflexivity|].
    intros n Hn. specialize (Hnone n Hn).
    destruct n as [t|t|i nm ats cs]; cbn [named] in *; auto.
    unfold script_names in Hnone. rewrite existsb_app in Hnone.
    apply orb_false_elim in Hnone as [H _]. exact H. }
  unfold clean_soup. rewrite Hscripts.
  assert (Hfold : forall tags,
             incl tags boilerplate -> fold_left remove_found tags s = s).
  { induction tags as [|t tags IH]; intros Hincl; cbn [fold_left];
      [reflexivity|].
    assert (Hstep : remove_found s t = s).
    { unfold remove_found, find. rewrite find_all_none; [reflexivity|].
      intros n Hn. apply Hname; [|exact Hn].
      apply in_or_app. right. apply Hincl. left. reflexivity. }
    rewrite Hstep. apply IH. intros x Hx. apply Hincl. right. exact Hx. }
  apply Hfold. apply incl_refl.
Qed.

End Kept.

Lemma X4_nothing_to_clean_witness :
  clean_soup [Bs4.Tag 1 "p" [] [Bs4.NavigableString "Hello world"]]
  = [Bs4.Tag 1 "p" [] [Bs4.NavigableString "Hello world"]].
Proof.
  apply (X4_nothing_to_clean
           [Bs4.Tag 1 "p" [] [Bs4.NavigableString "Hello world"]]).
  intros n [<-|[<-|[]]]; reflexivity.
Defined.


(** ** More on the metadata *)

Ltac split_lookups :=
  repeat match goal with
         | |- context [match Bs4.find ?p ?s with _ => _ end] =>
             destruct (Bs4.find p s)
         | |- context [match Bs4.tag_string ?t with _ => _ end] =>
             destruct (Bs4.tag_string t)
         | |- context [match Bs4.get ?k ?t with _ => _ end] =>
             destruct (Bs4.get k t)
         | |- context [if Py.truthy ?x then _ else _] =>
             destruct (Py.truthy x)
         end.


Lemma dict_get_title_meta_author (soup : Bs4.soup)
      (meta : list (string * string)) :
  Py.dict_get "title" (meta_author soup meta) = Py.dict_get "title" meta.
Proof.
  unfold meta_author.
  repeat match goal with
         | |- context [match ?x with _ => _ end] => destruct x
         end; try reflexivity;
    repeat (rewrite dict_get_set_other by discriminate); reflexivity.
Qed.

Lemma dict_get_title_meta_date (soup : Bs4.soup)
      (meta : list (string * string)) :
  Py.dict_get "title" (meta_date soup meta) = Py.dict_get "title" meta.
Proof.
  unfold meta_date.
  repeat match goal with
         | |- context [match ?x with _ => _ end] => destruct x
         end; try reflexivity;
    repeat (rewrite dict_get_set_other by discriminate); reflexivity.
Qed.

(** X6: the title of a document is the string of its first title element,
    stripped, when that element holds exactly one string, directly or
    through a chain of only children, and the string is not empty; a title
    element with no content, with several children or with an empty string
    gives no title. *)
Theorem X6_title_needs_a_single_string :
  forall soup : Bs4.soup,
    Py.dict_get "title" (extract_metadata soup)
    = match Bs4.find (Bs4.named ["title"]) soup with
      | Some title =>
          match Bs4.tag_string title with
          | Some s => if Py.truthy s then Some (Py.strip s) else None
          | None => None
          end
      | None => None
      end
    /\ (forall i nm ats cs,
           Bs4.find (Bs4.named ["title"]) soup = Some (Bs4.Tag i nm ats cs) ->
           length cs <> 1 ->
           Py.dict_get "title" (extract_metadata soup) = None).
Proof.
  intros soup.
  assert (Hformula :
            Py.dict_get "title" (extract_metadata soup)
            = match Bs4.find (Bs4.named ["title"]) soup with
              | Some title =>
                  match Bs4.tag_string title with
                  | Some s => if Py.truthy s then Some (Py.strip s) else None
                  | None => None
                  end
              | None => None
              end).
  { unfold extract_metadata.
    rewrite dict_get_title_meta_date, dict_get_title_meta_author.
    unfold meta_title. split_lookups; reflexivity. }
  split; [exact Hformula|].
  intros i nm ats cs Hfind Hlen. rewrite Hformula, Hfind.
  destruct cs as [|c [|c' cs]]; cbn [length] in Hlen;
    [reflexivity|contradiction|reflexivity].
Qed.

Lemma stripped_dict_set (k v : string) (d : list (string * string)) :
  (forall k' v', In (k', v') d -> Py.strip v' = v') ->
  forall k' v', In (k', v') (Py.dict_set k (Py.strip v) d) -> Py.strip v' = v'.
Proof.
  intros Hd k' v' Hin. apply In_dict_set in Hin as [[_ ->]|Hin];
    [apply strip_idempotent|eapply Hd, Hin].
Qed.

(** X7: every value that [extract_metadata] returns is stripped: it neither
    begins nor ends with whitespace. *)
Theorem X7_metadata_values_are_stripped :
  forall (soup : Bs4.soup) (key value : string),
    In (key, value) (extract_metadata soup) -> Py.strip value = value.
Proof.
  intros soup.
  assert (Hset : forall k v d,
             (forall k' v', In (k', v') d -> Py.strip v' = v') ->
             forall k' v',
               In (k', v') (Py.dict_set k (Py.strip v) d) -> Py.strip v' = v')
    by (intros k v d; apply stripped_dict_set).
  assert (Ht : forall k v, In (k, v) (meta_title soup []) -> Py.strip v = v).
  { unfold meta_title. split_lookups; try (now intros k v []).
    apply Hset. intros k v []. }
  assert (Ha : forall k v,
             In (k, v) (meta_author soup (meta_title soup [])) ->
             Py.strip v = v).
  { unfold meta_author.
    destruct (meta_content "name" "author" soup).
    - rewrite dict_get_set_same. apply Hset, Ht.
    - destruct (Py.dict_get "author" (meta_title soup [])); [exact Ht|].
      destruct (Bs4.find (Bs4.with_class "author") soup); [|exact Ht].
      apply Hset, Ht. }
  unfold extract_metadata, meta_date.
  destruct (meta_content "property" "article:published_time" soup);
    destruct (Bs4.find (Bs4.named ["time"]) soup);
    repeat apply Hset; exact Ha.
Qed.

Lemma keys_dict_set_new {V} (k : string) (v : V) (d : list (string * V)) :
  ~ In k (Py.keys d) -> Py.keys (Py.dict_set k v d) = Py.keys d ++ [k].
Proof.
  induction d as [|[k0 v0] d IH]; cbn [Py.dict_set Py.keys map fst app];
    [reflexivity|].
  intros Hnot. destruct (String.eqb_spec k k0) as [->|Hne].
  - exfalso. apply Hnot. left. reflexivity.
  - cbn [map fst]. f_equal. apply IH. intros H. apply Hnot. right. exact H.
Qed.

Lemma keys_dict_set_old {V} (k : string) (v : V) (d : list (string * V)) :
  In k (Py.keys d) -> Py.keys (Py.dict_set k v d) = Py.keys d.
Proof.
  induction d as [|[k0 v0] d IH]; cbn [Py.dict_set Py.keys map fst In];
    [contradiction|].
  intros Hin. destruct (String.eqb_spec k k0) as [->|Hne]; [reflexivity|].
  cbn [map fst]. f_equal. apply IH. destruct Hin; [congruence|assumption].
Qed.

Lemma keys_extract_metadata_order (soup : Bs4.soup) :
  exists title author date : bool,
    Py.keys (extract_metadata soup)
    = optional_key title "title" ++ optional_key author "author"
      ++ optional_key date "date".
Proof.
  assert (Ht : exists title,
             Py.keys (meta_title soup []) = optional_key title "title").
  { unfold meta_title. split_lookups;
      first [now exists true | now exists false]. }
  destruct Ht as [title Ht].
  assert (Ha : exists author,
             Py.keys (meta_author soup (meta_title soup []))
             = optional_key title "title" ++ optional_key author "author").
  { assert (Hno : ~ In "author" (Py.keys (meta_title soup []))).
    { rewrite Ht. destruct title; cbn; intuition discriminate. }
    unfold meta_author.
    destruct (meta_content "name" "author" soup).
    - rewrite dict_get_set_same. exists true.
      rewrite keys_dict_set_new, Ht by exact Hno. reflexivity.
    - destruct (Py.dict_get "author" (meta_title soup [])) eqn:Hget.
      + exfalso. apply Hno, dict_get_keys. congruence.
      + destruct (Bs4.find (Bs4.with_class "author") soup).
        * exists true. rewrite keys_dict_set_new, Ht by exact Hno. reflexivity.
        * exists false. rewrite Ht, app_nil_r. reflexivity. }
  destruct Ha as [author Ha].
  set (m := meta_author soup (meta_title soup [])) in *.
  assert (Hno : ~ In "date" (Py.keys m)).
  { rewrite Ha. destruct title, author; cbn; intuition discriminate. }
  unfold extract_metadata, meta_date. fold m.
  destruct (Bs4.find (Bs4.named ["time"]) soup).
  - exists title, author, true.
    destruct (meta_content "property" "article:published_time" soup).
    + rewrite keys_dict_set_old
        by (apply keys_dict_set; left; reflexivity).
      rewrite keys_dict_set_new, Ha, <- app_assoc by exact Hno. reflexivity.
    + rewrite keys_dict_set_new, Ha, <- app_assoc by exact Hno. reflexivity.
  - destruct (meta_content "property" "article:published_time" soup).
    + exists title, author, true.
      rewrite keys_dict_set_new, Ha, <- app_assoc by exact Hno. reflexivity.
    + exists title, author, false.
      rewrite Ha. cbn [optional_key]. rewrite app_nil_r. reflexivity.
Qed.


(** ** More on the records of a document and on the run *)

Section Records.

Variable html_parser : string -> Bs4.soup.
Variable read_text : string -> string + string.

(** Every record written for a file is built from the metadata of that
    file, an index and a chunk. *)
Lemma process_file_entries (file_path : string)
      (split_text : string -> list string) (source_url : option string)
      (entry : json) :
  In (WriteLine entry)
     (process_file html_parser read_text file_path split_text source_url) ->
  exists raw idx chunk,
    read_text file_path = inl raw
    /\ entry = entry_of (file_metadata (clean_soup (html_parser raw))
                                       file_path source_url) idx chunk.
Proof.
  unfold process_file. intros [Hin|Hin]; [discriminate|].
  destruct (read_text file_path) as [raw|e];
    [|destruct Hin as [Hin|[]]; discriminate].
  unfold clean_html in Hin.
  destruct (negb (Py.truthy (clean_text (clean_soup (html_parser raw)))));
    [destruct Hin as [Hin|[]]; discriminate|].
  apply in_map_iff in Hin as ([idx chunk] & Heq & _).
  injection Heq as <-. exists raw, idx, chunk. split; reflexivity.
Qed.

Lemma metadata_of_entry (metadata : list (string * string)) (idx : nat)
      (chunk : string) :
  metadata_of (entry_of metadata idx chunk)
  = Py.dict_set "chunk" (JInt (Z.of_nat idx))
      (map (fun kv => (fst kv, JString (snd kv))) metadata).
Proof. reflexivity. Qed.

Lemma keys_file_metadata_order (soup : Bs4.soup) (file_path : string)
      (source_url : option string) :
  exists title author date : bool,
    Py.keys (file_metadata soup file_path source_url)
    = optional_key title "title" ++ optional_key author "author"
      ++ optional_key date "date" ++ ["filename"]
      ++ optional_key match source_url with
                      | Some url => Py.truthy url
                      | None => false
                      end "source".
Proof.
  destruct (keys_extract_metadata_order soup) as (title & author & date & Hk).
  exists title, author, date. unfold file_metadata.
  assert (Hfile : Py.keys (Py.dict_set "filename" (OsPath.basename file_path)
                                       (extract_metadata soup))
                  = optional_key title "title" ++ optional_key author "author"
                    ++ optional_key date "date" ++ ["filename"]).
  { rewrite keys_dict_set_new, Hk, <- !app_assoc; [reflexivity|].
    rewrite Hk. destruct title, author, date; cbn; intuition discriminate. }
  destruct source_url as [url|]; [destruct (Py.truthy url)|];
    cbn [optional_key]; rewrite ?app_nil_r; try exact Hfile.
  rewrite keys_dict_set_new, Hfile, <- !app_assoc; [reflexivity|].
  rewrite Hfile. destruct title, author, date; cbn; intuition discriminate.
Qed.

(** X8: the keys of the metadata of every record written come in one
    order: [title], [author], [date], each when the document has it, then
    [filename], then [source] when a source URL is given, then [chunk]. *)
Theorem X8_metadata_keys_in_fixed_order :
  forall (file_path : string) (split_text : string -> list string)
         (source_url : option string) (entry : json),
    In (WriteLine entry)
       (process_file html_parser read_text file_path split_text source_url) ->
    exists title author date : bool,
      Py.keys (metadata_of entry)
      = optional_key title "title" ++ optional_key author "author"
        ++ optional_key date "date" ++ ["filename"]
        ++ optional_key match source_url with
                        | Some url => Py.truthy url
                        | None => false
                        end "source"
        ++ ["chunk"].
Proof.
  intros file_path split_text source_url entry Hin.
  apply process_file_entries in Hin as (raw & idx & chunk & _ & ->).
  destruct (keys_file_metadata_order (clean_soup (html_parser raw))
              file_path source_url) as (title & author & date & Hk).
  exists title, author, date. rewrite metadata_of_entry.
  rewrite keys_dict_set_new; rewrite keys_map_string, Hk.
  - rewrite <- !app_assoc. reflexivity.
  - destruct title, author, date, source_url as [url|];
      try destruct (Py.truthy url); cbn; intuition discriminate.
Qed.

(** X9: the records written for one document differ in [content] and
    [chunk] only: any two of them agree on every other key of the
    metadata. *)
Theorem X9_records_share_the_metadata :
  forall (file_path : string) (split_text : string -> list string)
         (source_url : option string) (first second : json) (key : string),
    In (WriteLine first)
       (process_file html_parser read_text file_path split_text source_url) ->
    In (WriteLine second)
       (process_file html_parser read_text file_path split_text source_url) ->
    key <> "chunk" ->
    Py.dict_get key (metadata_of first) = Py.dict_get key (metadata_of second).
Proof.
  intros file_path split_text source_url first second key H1 H2 Hkey.
  apply process_file_entries in H1 as (raw1 & i1 & c1 & Hr1 & ->).
  apply process_file_entries in H2 as (raw2 & i2 & c2 & Hr2 & ->).
  rewrite Hr1 in Hr2. injection Hr2 as <-.
  rewrite !metadata_of_entry, !dict_get_set_other by exact Hkey.
  reflexivity.
Qed.




Lemma prints_touch_nothing (events : list event) :
  Forall is_print events ->
  opened events = [] /\ opened_for_writing events = [] /\ written events = [].
Proof.
  induction 1 as [|e events He _ (IH1 & IH2 & IH3)]; [repeat split|].
  destruct e; try contradiction. repeat split; assumption.
Qed.



Variable lookup : string -> option fs_node.
Variable separators : list string.

(** X10: a run that finds no input file prints the paths it skipped and
    that no input file was found, and returns: it opens no file, the output
    file included, and does so whatever the chunk size and the overlap. *)
Theorem X10_no_input_file_no_output_file :
  forall args : arguments,
    fst (gather_files lookup (input args)) = [] ->
    main html_parser read_text lookup separators args
    = (map (fun p => Print ("Skipping non-existent path: " ++ p))
           (filter (missing lookup) (input args))
         ++ [Print "No input files found."],
       Returned)
    /\ opened_for_writing
         (fst (main html_parser read_text lookup separators args)) = []
    /\ opened (fst (main html_parser read_text lookup separators args)) = [].
Proof.
  intros args Hnone.
  assert (Hmain : main html_parser read_text lookup separators args
                  = (map (fun p => Print ("Skipping non-existent path: " ++ p))
                         (filter (missing lookup) (input args))
                       ++ [Print "No input files found."],
                     Returned)).
  { unfold main. rewrite gather_files_eq in *. cbn [fst] in Hnone.
    rewrite Hnone. reflexivity. }
  rewrite Hmain. cbn [fst]. split; [reflexivity|].
  assert (Hp : Forall is_print
                 (map (fun p => Print ("Skipping non-existent path: " ++ p))
                      (filter (missing lookup) (input args))
                    ++ [Print "No input files found."])).
  { apply Forall_app. split; [|repeat constructor].
    apply Forall_forall. intros e He.
    apply in_map_iff in He as (p & <- & _). exact I. }
  destruct (prints_touch_nothing _ Hp) as (H1 & H2 & _). split; assumption.
Qed.


(** X12: [main] hands no source URL to [process_file]: no record written
    by a run has a [source] key. *)
Theorem X12_run_writes_no_source_key :
  forall (args : arguments) (entry : json),
    In (WriteLine entry)
       (fst (main html_parser read_text lookup separators args)) ->
    Py.dict_get "source" (metadata_of entry) = None.
Proof.
  intros args entry Hin.
  assert (Hfile : exists file_path split_text,
             In (WriteLine entry)
                (process_file html_parser read_text file_path split_text None)).
  { pose proof (gather_files_prints lookup (input args)) as Hprints.
    unfold main in Hin.
    destruct (gather_files lookup (input args)) as [files printed].
    cbn [snd] in Hprints. rewrite Forall_forall in Hprints.
    assert (Hnot : ~ In (WriteLine entry) printed)
      by (intros H; exact (Hprints _ H)).
    destruct files as [|f files].
    - cbn [fst] in Hin. apply in_app_or in Hin as [H|H]; [contradiction|].
      destruct H as [H|[]]. discriminate.
    - destruct (Splitter.RecursiveCharacterTextSplitter _ _ _)
        as [|split_text]; cbn [fst] in Hin; [contradiction|].
      apply in_app_or in Hin as [H|H]; [contradiction|].
      apply in_app_or in H as [H|H]; [destruct H as [H|[]]; discriminate|].
      apply in_app_or in H as [H|H]; [|destruct H as [H|[]]; discriminate].
      unfold process_all in H. apply in_flat_map in H as (file_path & _ & H).
      eauto. }
  destruct Hfile as (file_path & split_text & Hfile).
  apply process_file_entries in Hfile as (raw & idx & chunk & _ & ->).
  rewrite metadata_of_entry, dict_get_set_other, dict_get_map_string
    by discriminate.
  unfold file_metadata. rewrite dict_get_set_other by discriminate.
  destruct (Py.dict_get "source" (extract_metadata _)) eqn:Hget;
    [|reflexivity].
  exfalso.
  assert (Hk : In "source" (Py.keys (extract_metadata
                                       (clean_soup (html_parser raw)))))
    by (apply dict_get_keys; congruence).
  apply keys_extract_metadata in Hk as [[H _]|[[H _]|[H _]]]; discriminate.
Qed.

End Records.


(** ** More on file discovery *)

Section Discovery.

Variable lookup : string -> option fs_node.

(** X13: the files returned do not depend on the order of the path
    arguments, and the result for two lists of paths put together is the
    sorted union, copies kept, of the results for each; the paths skipped
    are printed in the order of the arguments. *)
Theorem X13_gather_files_ignores_argument_order :
  (forall paths paths',
      Permutation paths paths' ->
      fst (gather_files lookup paths) = fst (gather_files lookup paths'))
  /\ (forall first second,
         fst (gather_files lookup (first ++ second))
         = Py.sorted (fst (gather_files lookup first)
                        ++ fst (gather_files lookup second))
         /\ snd (gather_files lookup (first ++ second))
            = snd (gather_files lookup first)
                ++ snd (gather_files lookup second)).
Proof.
  split.
  - intros paths paths' Hp. rewrite !gather_files_eq. cbn [fst].
    apply sorted_perm_invariant, Permutation_flat_map, Hp.
  - intros first second. rewrite !gather_files_eq. cbn [fst snd]. split.
    + apply sorted_perm_invariant. rewrite flat_map_app.
      apply Permutation_app; apply sorted_perm.
    + rewrite filter_app, map_app. reflexivity.
Qed.

Lemma count_occ_found (paths : list string) (path : string) :
  lookup path = Some RegularFile ->
  count_occ string_dec paths path
  <= count_occ string_dec (flat_map (found_under lookup) paths) path.
Proof.
  intros Hfile. induction paths as [|p paths IH]; [apply Nat.le_refl|].
  cbn [flat_map]. rewrite count_occ_app. cbn [count_occ].
  destruct (string_dec p path) as [->|Hne]; [|lia].
  unfold found_under at 1. rewrite Hfile. cbn [count_occ].
  destruct (string_dec path path); [lia|contradiction].
Qed.

(** X14: [gather_files] keeps duplicates: a regular file named several
    times among the arguments is returned at least as many times. *)
Theorem X14_gather_files_keeps_duplicates :
  forall (paths : list string) (path : string),
    lookup path = Some RegularFile ->
    count_occ string_dec paths path
    <= count_occ string_dec (fst (gather_files lookup paths)) path.
Proof.
  intros paths path Hfile. rewrite gather_files_eq. cbn [fst].
  rewrite <- (proj1 (Permutation_count_occ string_dec _ _)
                    (sorted_perm (flat_map (found_under lookup) paths))).
  apply count_occ_found, Hfile.
Qed.

(** X15: a path argument that exists but is neither a regular file nor a
    directory is treated like a path that does not exist: it is reported
    as non-existent and contributes no file. *)
Theorem X15_special_file_reported_missing :
  forall (before after : list string) (path : string),
    lookup path = Some Special ->
    In (Print ("Skipping non-existent path: " ++ path))
       (snd (gather_files lookup (before ++ path :: after)))
    /\ fst (gather_files lookup (before ++ path :: after))
       = fst (gather_files lookup (before ++ after)).
Proof.
  intros before after path Hspecial. rewrite !gather_files_eq.
  cbn [fst snd]. split.
  - apply in_map_iff. exists path. split; [reflexivity|].
    apply filter_In. split; [apply in_elt|].
    unfold missing, isdir, isfile. rewrite Hspecial. reflexivity.
  - rewrite !flat_map_app. cbn [flat_map]. unfold found_under at 2.
    rewrite Hspecial. reflexivity.
Qed.

End Discovery.

Lemma X14_keeps_duplicates_witness :
  2 <= count_occ string_dec
         (fst (gather_files Sample.lookup ["README.txt"; "README.txt"]))
         "README.txt".
Proof.
  exact (X14_gather_files_keeps_duplicates
           Sample.lookup ["README.txt"; "README.txt"] "README.txt" eq_refl).
Defined.


(** ** File names *)

Lemma lower_app (a b : string) :
  Py.lower (a ++ b) = (Py.lower a ++ Py.lower b)%string.
Proof.
  induction a as [|c a IH]; cbn [String.append Py.lower]; [reflexivity|].
  rewrite IH. reflexivity.
Qed.

Lemma lower_split (a p s : string) :
  Py.lower s = (a ++ p)%string ->
  exists stem ext,
    s = (stem ++ ext)%string /\ Py.lower stem = a /\ Py.lower ext = p.
Proof.
  revert s. induction a as [|c a IH]; intros s Hs.
  - exists EmptyString, s. auto.
  - destruct s as [|d s]; [discriminate|].
    cbn [Py.lower String.append] in Hs. injection Hs as Hc Hs.
    destruct (IH s Hs) as (stem & ext & -> & Hstem & Hext).
    exists (String d stem), ext. cbn [Py.lower String.append].
    rewrite Hc, Hstem. auto.
Qed.

Lemma length_append (a b : string) :
  String.length (a ++ b) = String.length a + String.length b.
Proof.
  induction a as [|c a IH]; cbn [String.append String.length]; [reflexivity|].
  rewrite IH. reflexivity.
Qed.

Lemma substring_whole (s : string) : substring 0 (String.length s) s = s.
Proof.
  induction s as [|c s IH]; cbn [String.length substring]; [reflexivity|].
  rewrite IH. reflexivity.
Qed.

Lemma substring_past (a p : string) (n : nat) :
  substring (String.length a) n (a ++ p) = substring 0 n p.
Proof.
  induction a as [|c a IH]; [reflexivity|].
  cbn [String.length String.append substring]. exact IH.
Qed.

Lemma substring_split (s : string) (n : nat) :
  n <= String.length s ->
  s = (substring 0 n s ++ substring n (String.length s - n) s)%string.
Proof.
  revert n. induction s as [|c s IH]; intros [|n] Hn;
    cbn [String.length] in *; try lia.
  - reflexivity.
  - cbn [substring String.append Nat.sub]. rewrite substring_whole.
    reflexivity.
  - cbn [substring String.append Nat.sub]. f_equal. apply IH. lia.
Qed.

Lemma endswith_append (a p : string) : Py.endswith (a ++ p) p = true.
Proof.
  unfold Py.endswith. rewrite length_append.
  replace (String.length a + String.length p - String.length p)
    with (String.length a) by lia.
  rewrite substring_past, substring_whole, String.eqb_refl.
  apply andb_true_iff. split; [apply Nat.leb_le; lia|reflexivity].
Qed.

Lemma endswith_split (s p : string) :
  Py.endswith s p = true -> exists a, s = (a ++ p)%string.
Proof.
  unfold Py.endswith. intros H. apply andb_prop in H as [Hlen Heq].
  apply Nat.leb_le in Hlen. apply String.eqb_eq in Heq.
  exists (substring 0 (String.length s - String.length p) s).
  pose proof (substring_split s (String.length s - String.length p)
                (Nat.le_sub_l _ _)) as Hs.
  replace (String.length s - (String.length s - String.length p))
    with (String.length p) in Hs by lia.
  rewrite Heq in Hs. exact Hs.
Qed.

(** X16: a name met while walking a directory is taken exactly when it
    ends in an extension that, put in lower case, is [.html] or [.htm]:
    [page.html], [PAGE.HTML] and [Index.Htm] are taken, [page.xhtml] with its
    other ending is not. *)
Theorem X16_markup_names :
  forall name : string,
    is_html name = true
    <-> exists stem ext,
          name = (stem ++ ext)%string
          /\ (Py.lower ext = ".html" \/ Py.lower ext = ".htm").
Proof.
  intros name. unfold is_html, Py.endswith_any. cbn [existsb].
  rewrite orb_false_r, orb_true_iff. split.
  - intros [H|H]; apply endswith_split in H as [a Ha];
      apply lower_split in Ha as (stem & ext & -> & _ & Hext); eauto.
  - intros (stem & ext & -> & [Hext|Hext]); rewrite lower_app, Hext;
      [left|right]; apply endswith_append.
Qed.

Lemma slash_in (s : string) :
  existsb (Ascii.eqb OsPath.sep) (list_ascii_of_string s) = negb (no_slash s).
Proof.
  induction s as [|c s IH]; [reflexivity|].
  cbn [list_ascii_of_string existsb no_slash]. rewrite IH, Ascii.eqb_sym.
  destruct (Ascii.eqb c OsPath.sep); reflexivity.
Qed.

Lemma basename_no_slash (p : string) : no_slash (OsPath.basename p) = true.
Proof.
  induction p as [|c p IH]; [reflexivity|].
  cbn [OsPath.basename]. rewrite slash_in.
  destruct (no_slash p) eqn:Hp; cbn [negb]; [|exact IH].
  destruct (Ascii.eqb c OsPath.sep) eqn:Hc; [exact Hp|].
  cbn [no_slash]. rewrite Hc, Hp. reflexivity.
Qed.

Lemma basename_suffix (p : string) :
  exists dir,
    p = (dir ++ OsPath.basename p)%string
    /\ (dir = EmptyString \/ Py.endswith dir "/" = true).
Proof.
  induction p as [|c p (dir & Hdir & Hend)].
  - exists EmptyString. auto.
  - cbn [OsPath.basename]. rewrite slash_in.
    destruct (no_slash p) eqn:Hp; cbn [negb].
    + destruct (Ascii.eqb_spec c OsPath.sep) as [->|Hc].
      * exists "/". split; [reflexivity|right; reflexivity].
      * exists EmptyString. auto.
    + exists (String c dir). split.
      * cbn [String.append]. f_equal. exact Hdir.
      * right. destruct Hend as [->|Hend].
        -- exfalso. cbn [String.append] in Hdir.
           pose proof (basename_no_slash p) as Hb. rewrite <- Hdir in Hb.
           congruence.
        -- apply endswith_split in Hend as [a ->].
           apply (endswith_append (String c a) "/").
Qed.

(** X17: the [filename] of the metadata is the last component of the path
    of the file: it holds no slash, and the path is that name put behind a
    directory part that is empty or ends in a slash. *)
Theorem X17_filename_is_last_component :
  forall (soup : Bs4.soup) (file_path : string) (source_url : option string),
    exists name dir,
      Py.dict_get "filename" (file_metadata soup file_path source_url)
      = Some name
      /\ no_slash name = true
      /\ file_path = (dir ++ name)%string
      /\ (dir = EmptyString \/ Py.endswith dir "/" = true).
Proof.
  intros soup file_path source_url.
  destruct (basename_suffix file_path) as (dir & Hdir & Hend).
  exists (OsPath.basename file_path), dir.
  split; [|split; [apply basename_no_slash|split; assumption]].
  unfold file_metadata. destruct source_url as [url|];
    [destruct (Py.truthy url)|];
    try rewrite (dict_get_set_other "filename" "source") by discriminate;
    apply dict_get_set_same.
Qed.

Lemma X13_argument_order_witness :
  fst (gather_files Sample.lookup ["site"; "README.txt"])
  = fst (gather_files Sample.lookup ["README.txt"; "site"]).
Proof.
  apply (proj1 (X13_gather_files_ignores_argument_order Sample.lookup)).
  apply perm_swap.
Defined.

Lemma X15_special_file_witness :
  In (Print "Skipping non-existent path: pipe")
     (snd (gather_files
             (fun p => if String.eqb p "pipe" then Some Special else None)
             ["pipe"])).
Proof.
  exact (proj1 (X15_special_file_reported_missing
                  (fun p => if String.eqb p "pipe" then Some Special else None)
                  [] [] "pipe" eq_refl)).
Defined.


(** ** The further theorems on the sample site *)

Lemma X6_title_witness :
  Py.dict_get "title"
    (extract_metadata
       [Bs4.Tag 1 "title" []
          [Bs4.NavigableString "Hello"; Bs4.Tag 2 "b" [] []]])
  = None.
Proof.
  refine (proj2 (X6_title_needs_a_single_string
                   [Bs4.Tag 1 "title" []
                      [Bs4.NavigableString "Hello"; Bs4.Tag 2 "b" [] []]])
                1 "title" []
                [Bs4.NavigableString "Hello"; Bs4.Tag 2 "b" [] []] eq_refl _).
  cbn. lia.
Defined.

Lemma X7_stripped_witness : Py.strip "Hello" = "Hello".
Proof.
  apply (X7_metadata_values_are_stripped
           [Bs4.Tag 1 "title" [] [Bs4.NavigableString " Hello "]]
           "title" "Hello").
  vm_compute. auto.
Defined.

Lemma X8_key_order_witness :
  exists title author date : bool,
    ["filename"; "chunk"]
    = optional_key title "title" ++ optional_key author "author"
      ++ optional_key date "date" ++ ["filename"]
      ++ optional_key false "source" ++ ["chunk"].
Proof.
  apply (X8_metadata_keys_in_fixed_order
           Sample.html_parser Sample.read_text "site/page.html" Sample.whole
           None (Sample.page_record "Hello world" 0)).
  vm_compute. auto.
Defined.

Lemma X9_shared_metadata_witness :
  Py.dict_get "filename" (metadata_of (Sample.page_record "Hello" 0))
  = Py.dict_get "filename" (metadata_of (Sample.page_record " world" 1)).
Proof.
  apply (X9_records_share_the_metadata
           Sample.html_parser Sample.read_text "site/page.html" Sample.halves
           None).
  - vm_compute. auto.
  - vm_compute. auto.
  - discriminate.
Defined.

Lemma X10_no_input_witness :
  opened_for_writing
    (fst (main Sample.html_parser Sample.read_text Sample.lookup
               Sample.separators Sample.bad_overlap)) = [].
Proof.
  exact (proj1 (proj2 (X10_no_input_file_no_output_file
                         Sample.html_parser Sample.read_text Sample.lookup
                         Sample.separators Sample.bad_overlap eq_refl))).
Defined.


Lemma X12_no_source_witness :
  Py.dict_get "source" (metadata_of (Sample.page_record "Hello world" 0))
  = None.
Proof.
  apply (X12_run_writes_no_source_key
           Sample.html_parser Sample.read_text Sample.lookup
           Sample.separators Sample.defaults).
  vm_compute. auto 10.
Defined.

